(** * Sentiment-Dashboard backend: validator, batch inference engine, aggregator

    A shallow embedding of [backend/app/utils.py], [backend/app/models.py]
    and [backend/app/main.py].

    - Python integers are [Z]; list lengths and indices that can only be
      non-negative are [nat].
    - Probabilities and confidences are exact rationals [Q].  The
      tokenizer, the transformer's forward pass and [torch]'s [softmax] are
      external: they are parameters of the development.
    - A Python call that may raise returns [exn + A].  Code that also
      touches the process-wide model or the event loop runs in the monad
      [M W A := W -> (exn + A) * W], where [W] is the state of everything
      outside the request (model object, other tasks of the event loop). *)

From Stdlib Require Import String DecimalString Bool Arith ZArith QArith List Lia Lqa.
Import ListNotations.

Local Open Scope string_scope.
Local Open Scope list_scope.
Local Open Scope Z_scope.

(* ===================================================================== *)
(** ** Python runtime: exceptions, [range], slices, [str.endswith] *)
(* ===================================================================== *)

(** Exceptions that can travel through the handler.  [HTTPException] is
    FastAPI's (a subclass of [Exception]); the remaining constructors are
    built-in exception classes, and [LibraryError] stands for whatever
    pandas, the tokenizer or the model raise. *)
Inductive exn : Type :=
| HTTPException (status_code : Z) (detail : string)
| ValueError (msg : string)
| IndexError (msg : string)
| ZeroDivisionError (msg : string)
| LibraryError (cls msg : string).

(** Every constructor above derives from [Exception], so the clause
    [except Exception as e] matches all of them. *)
Definition isinstance_Exception (e : exn) : bool := true.

Definition result_of (A : Type) : Type := (exn + A)%type.

Definition ok {A} (a : A) : result_of A := inr a.
Definition raise {A} (e : exn) : result_of A := inl e.

Definition rbind {A B} (r : result_of A) (k : A -> result_of B) : result_of B :=
  match r with
  | inl e => inl e
  | inr a => k a
  end.

(** [str(n)] for an integer: its decimal digits. *)
Definition str_of_nat (n : nat) : string :=
  NilZero.string_of_uint (Nat.to_uint n).

Definition str_of_int (z : Z) : string :=
  NilZero.string_of_int (Z.to_int z).

(** Number of elements of [range(start, stop, step)] for [step <> 0]. *)
Definition range_length (start stop step : Z) : Z :=
  if 0 <? step then
    (if start <? stop then (stop - start - 1) / step + 1 else 0)
  else
    (if stop <? start then (start - stop - 1) / (- step) + 1 else 0).

(** [list(range(start, stop, step))]; a zero step raises [ValueError]. *)
Definition py_range (start stop step : Z) : result_of (list Z) :=
  if step =? 0 then raise (ValueError "range() arg 3 must not be zero")
  else ok (map (fun k : nat => start + Z.of_nat k * step)
               (seq 0 (Z.to_nat (range_length start stop step)))).

(** Normalisation of one slice bound against a sequence of length [len]. *)
Definition clamp_index (len i : Z) : Z :=
  if i <? 0 then Z.max 0 (i + len) else Z.min i len.

(** [l[lo:hi]]: never raises, bounds are clamped to the list. *)
Definition py_slice {A} (l : list A) (lo hi : Z) : list A :=
  let len := Z.of_nat (length l) in
  let lo' := clamp_index len lo in
  let hi' := clamp_index len hi in
  firstn (Z.to_nat (hi' - lo')) (skipn (Z.to_nat lo') l).

(** [s.endswith(suffix)]. *)
Definition endswith (s suffix : string) : bool :=
  let n := String.length s in
  let m := String.length suffix in
  (m <=? n)%nat && String.eqb (substring (n - m) m s) suffix.

(* ===================================================================== *)
(** ** The monad of the request handler *)
(* ===================================================================== *)

Section Monad.
Context {W : Type}.

Definition M (A : Type) : Type := W -> result_of A * W.

Definition ret {A} (a : A) : M A := fun w => (inr a, w).

Definition throw {A} (e : exn) : M A := fun w => (inl e, w).

Definition bind {A B} (m : M A) (k : A -> M B) : M B :=
  fun w =>
    match m w with
    | (inl e, w') => (inl e, w')
    | (inr a, w') => k a w'
    end.

(** A pure, possibly raising computation run inside the handler. *)
Definition lift {A} (r : result_of A) : M A := fun w => (r, w).

(** [try: body  except Exception as e: handler(e)]. *)
Definition try_except {A} (body : M A) (handler : exn -> M A) : M A :=
  fun w =>
    match body w with
    | (inl e, w') => if isinstance_Exception e then handler e w' else (inl e, w')
    | (inr a, w') => (inr a, w')
    end.
End Monad.

Arguments M : clear implicits.

Declare Scope handler_scope.
Delimit Scope handler_scope with handler.
Notation "x <- m ;; k" := (bind m (fun x => k))
  (at level 61, m at next level, right associativity) : handler_scope.
Notation "m ;;; k" := (bind m (fun _ => k))
  (at level 61, right associativity) : handler_scope.

(* ===================================================================== *)
(** ** utils.py *)
(* ===================================================================== *)

(** A cell read from the CSV: [None] is pandas' missing value (NaN). *)
Definition cell : Type := option string.

(** The part of a [pandas.DataFrame] that the backend looks at: the column
    labels and the rows in index order. *)
Record DataFrame : Type := mkDataFrame {
  columns : list string;
  rows : list (list cell)
}.

Definition nrows (df : DataFrame) : nat := length (rows df).

(** ['name' in df.columns]. *)
Definition has_column (name : string) (df : DataFrame) : bool :=
  existsb (String.eqb name) (columns df).

(** [df.empty]: true when either axis has length zero. *)
Definition df_empty (df : DataFrame) : bool :=
  (length (columns df) =? 0)%nat || (nrows df =? 0)%nat.

Definition MissingColumn : string := "CSV file must contain a 'review' column".
Definition EmptyDataset : string := "CSV file is empty".

Definition validate_csv (df : DataFrame) : option string :=
  if negb (has_column "review" df) then Some MissingColumn
  else if df_empty df then Some EmptyDataset
  else None.

(* ===================================================================== *)
(** ** models.py *)
(* ===================================================================== *)

(** One entry of the list returned by [analyze_batch]. *)
Record result : Type := mkResult {
  text : string;
  label : string;
  score : Q
}.

(** A 2-d tensor, row by row. *)
Definition tensor : Type := list (list Q).

(** [row.argmax()]: index of the first maximal entry.  [best_i] and [best]
    are the running maximum, [i] the index of the head of [row]. *)
Fixpoint argmax_from (best_i : nat) (best : Q) (i : nat) (row : list Q) : nat :=
  match row with
  | [] => best_i
  | x :: row' =>
      if Qle_bool x best then argmax_from best_i best (S i) row'
      else argmax_from i x (S i) row'
  end.

Definition argmax (row : list Q) : result_of nat :=
  match row with
  | [] => raise (IndexError "argmax(): Expected reduction dim to be specified for input.numel() == 0.")
  | x :: row' => ok (argmax_from 0%nat x 1%nat row')
  end.

(** The exception torch raises for index [i] in a dimension of size [n]. *)
Definition index_error (i n : nat) : exn :=
  IndexError ("index " ++ str_of_nat i
              ++ " is out of bounds for dimension 0 with size "
              ++ str_of_nat n).

(** Indexing the first dimension of a tensor with a non-negative index. *)
Definition getitem {A} (l : list A) (i : nat) : result_of A :=
  match nth_error l i with
  | Some a => ok a
  | None => raise (index_error i (length l))
  end.

Section Models.
Context {W : Type}.

(** [torch.nn.functional.softmax] applied to one row (dim=1). *)
Variable softmax : list Q -> list Q.

(** [await asyncio.sleep(0.01)]: other tasks of the event loop run. *)
Variable asyncio_sleep : W -> W.

(** The fields of [self] used by [analyze_batch].  [forward] is the
    tokenizer call (padding, truncation at 512 tokens), the move to the
    device and the model call under [torch.no_grad()], returning
    [outputs.logits] for the whole batch of texts. *)
Record SentimentAnalyzer : Type := mkSentimentAnalyzer {
  forward : list string -> M W tensor;
  batch_size : Z
}.

(** Label and score of one row of [scores]. *)
Definition classify_row (text : string) (row : list Q) : result_of result :=
  rbind (argmax row) (fun sentiment_id =>
  let label := if (sentiment_id =? 0)%nat then "NEGATIVE" else "POSITIVE" in
  rbind (getitem row sentiment_id) (fun score =>
  ok (mkResult text label score))).

(** The inner loop [for j, text in enumerate(batch_texts)], started at
    index [j] with the current [results]. *)
Fixpoint enumerate_loop (scores : tensor) (j : nat) (batch_texts : list string)
         (results : list result) : result_of (list result) :=
  match batch_texts with
  | [] => ok results
  | text :: batch_texts' =>
      rbind (getitem scores j) (fun row =>
      rbind (classify_row text row) (fun r =>
      enumerate_loop scores (S j) batch_texts' (results ++ [r])))
  end.

(** [texts[i:i+self.batch_size]]. *)
Definition batch_at (self : SentimentAnalyzer) (texts : list string) (i : Z)
  : list string :=
  py_slice texts i (i + batch_size self).

(** The yield between two batches: it returns nothing and leaves the
    outside world to the other tasks. *)
Definition sleep : M W unit := fun w => (ok tt, asyncio_sleep w).

(** One iteration of the outer loop on the slice [batch_texts]. *)
Definition batch_step (self : SentimentAnalyzer) (batch_texts : list string)
           (results : list result) : M W (list result) :=
  (logits <- forward self batch_texts ;;
   let scores := map softmax logits in
   results' <- lift (enumerate_loop scores 0%nat batch_texts results) ;;
   sleep ;;;
   ret results')%handler.

(** The outer loop over the start indices produced by [range]. *)
Fixpoint batch_loop (self : SentimentAnalyzer) (texts : list string)
         (starts : list Z) (results : list result) : M W (list result) :=
  match starts with
  | [] => ret results
  | i :: starts' =>
      (results' <- batch_step self (batch_at self texts i) results ;;
       batch_loop self texts starts' results')%handler
  end.

Definition analyze_batch (self : SentimentAnalyzer) (texts : list string)
  : M W (list result) :=
  (starts <- lift (py_range 0 (Z.of_nat (length texts)) (batch_size self)) ;;
   batch_loop self texts starts [])%handler.

(** The slices on which [analyze_batch] calls the model, in call order
    (empty when [range] raises or yields nothing). *)
Definition batches (self : SentimentAnalyzer) (texts : list string)
  : list (list string) :=
  match py_range 0 (Z.of_nat (length texts)) (batch_size self) with
  | inl _ => []
  | inr starts => map (batch_at self texts) starts
  end.
End Models.

Arguments SentimentAnalyzer : clear implicits.
Arguments mkSentimentAnalyzer {W} forward batch_size.
Arguments forward {W} s _ _.
Arguments batch_size {W} s.

(* ===================================================================== *)
(** ** main.py *)
(* ===================================================================== *)

(** [sum(...)] of Python integers and of scores, starting from [0]. *)
Definition sum_ints (l : list Z) : Z := fold_left Z.add l 0.
Definition sum_scores (l : list Q) : Q := fold_left Qplus l 0%Q.

(** [total / count] on numbers: raises on a zero divisor. *)
Definition truediv (total : Q) (count : Z) : result_of Q :=
  if count =? 0 then raise (ZeroDivisionError "division by zero")
  else ok (total / inject_Z count)%Q.

(** The ["summary"] object of the response. *)
Record Summary : Type := mkSummary {
  positive_count : Z;
  negative_count : Z;
  positive_avg_confidence : Q;
  negative_avg_confidence : Q;
  total_reviews : Z
}.

Definition has_label (l : string) (r : result) : bool := String.eqb (label r) l.

(** "Calculate summary statistics" of [analyze_reviews]. *)
Definition summarize (results : list result) : result_of Summary :=
  let positive_count :=
    sum_ints (map (fun _ => 1) (filter (has_label "POSITIVE") results)) in
  let negative_count :=
    sum_ints (map (fun _ => 1) (filter (has_label "NEGATIVE") results)) in
  let positive_avg_score := 0%Q in
  let negative_avg_score := 0%Q in
  rbind (if 0 <? positive_count
         then truediv (sum_scores (map score (filter (has_label "POSITIVE") results)))
                      positive_count
         else ok positive_avg_score) (fun positive_avg_score =>
  rbind (if 0 <? negative_count
         then truediv (sum_scores (map score (filter (has_label "NEGATIVE") results)))
                      negative_count
         else ok negative_avg_score) (fun negative_avg_score =>
  ok (mkSummary positive_count negative_count
                positive_avg_score negative_avg_score
                (Z.of_nat (length results))))).

(** Position of the first column called [name]. *)
Fixpoint column_index (name : string) (cols : list string) : option nat :=
  match cols with
  | [] => None
  | c :: cols' =>
      if String.eqb c name then Some 0%nat
      else option_map S (column_index name cols')
  end.

(** [df[name]]: the cells of one column, in row order. *)
Definition get_column (name : string) (df : DataFrame) : result_of (list cell) :=
  match column_index name (columns df) with
  | None => raise (LibraryError "KeyError" ("'" ++ name ++ "'"))
  | Some k => ok (map (fun row => nth k row None) (rows df))
  end.

(** [.fillna('').astype(str)] on one cell. *)
Definition clean_cell (c : cell) : string :=
  match c with
  | None => EmptyString
  | Some s => s
  end.

(** Replace the [k]-th cell of a row. *)
Fixpoint set_nth {A} (k : nat) (a : A) (l : list A) : list A :=
  match l, k with
  | [], _ => []
  | _ :: l', O => a :: l'
  | x :: l', S k' => x :: set_nth k' a l'
  end.

(** [df[name] = values] for a column that exists and [values] of the
    frame's length. *)
Definition assign_column (name : string) (values : list cell) (df : DataFrame)
  : DataFrame :=
  match column_index name (columns df) with
  | None => df
  | Some k =>
      mkDataFrame (columns df)
                  (map (fun rv => set_nth k (snd rv) (fst rv))
                       (combine (rows df) values))
  end.

(** One element of the ["reviews"] array: the columns of the row other
    than [sentiment] and [confidence], and these two, which the handler
    sets (a column of the upload that bears one of the two names is
    overwritten). *)
Record ReviewRecord : Type := mkReviewRecord {
  fields : list (string * cell);
  sentiment : string;
  confidence : Q
}.

Record Response : Type := mkResponse {
  summary : Summary;
  reviews : list ReviewRecord
}.

(** A column label that the handler assigns itself. *)
Definition assigned_label (name : string) : bool :=
  String.eqb name "sentiment" || String.eqb name "confidence".

(** [df['sentiment'] = ...; df['confidence'] = ...; df.to_dict('records')].
    pandas refuses a column whose length differs from the frame's. *)
Definition to_records (df : DataFrame) (results : list result)
  : result_of (list ReviewRecord) :=
  if (length results =? nrows df)%nat then
    ok (map (fun rr =>
               mkReviewRecord
                 (filter (fun kv => negb (assigned_label (fst kv)))
                         (combine (columns df) (fst rr)))
                 (label (snd rr)) (score (snd rr)))
            (combine (rows df) results))
  else raise (ValueError ("Length of values (" ++ str_of_nat (length results)
                          ++ ") does not match length of index ("
                          ++ str_of_nat (nrows df) ++ ")")).

Section Main.
Context {W : Type}.
Variable softmax : list Q -> list Q.
Variable asyncio_sleep : W -> W.

(** [pd.read_csv(io.StringIO(content.decode('utf-8')))]. *)
Variable read_csv : string -> result_of DataFrame.

(** [str(e)]. *)
Variable str_of_exn : exn -> string.

(** The module-level [sentiment_analyzer]. *)
Variable sentiment_analyzer : SentimentAnalyzer W.

(** The body of the [try] block.  [if validation_error:] is false for
    [None] and for the empty string. *)
Definition process_csv (content : string) : M W Response :=
  (df <- lift (read_csv content) ;;
   let validation_error := validate_csv df in
   match validation_error with
   | Some detail =>
       if String.eqb detail EmptyString then ret tt
       else throw (HTTPException 400 detail)
   | None => ret tt
   end ;;;
   review <- lift (get_column "review" df) ;;
   let df := assign_column "review" (map (fun c => Some (clean_cell c)) review) df in
   review <- lift (get_column "review" df) ;;
   results <- analyze_batch softmax asyncio_sleep sentiment_analyzer
                            (map clean_cell review) ;;
   summary <- lift (summarize results) ;;
   records <- lift (to_records df results) ;;
   ret (mkResponse summary records))%handler.

(** [POST /analyze]. *)
Definition analyze_reviews (filename content : string) : M W Response :=
  if negb (endswith filename ".csv")
  then throw (HTTPException 400 "Only CSV files are accepted")
  else
    try_except (process_csv content)
      (fun e => throw (HTTPException 500
                         ("Error processing CSV: " ++ str_of_exn e))).

(** Status code FastAPI answers with. *)
Definition http_status (r : result_of Response) : Z :=
  match r with
  | inr _ => 200
  | inl (HTTPException status_code _) => status_code
  | inl _ => 500
  end.
End Main.

(* ===================================================================== *)
(** ** Auxiliary definitions used to state the properties *)
(* ===================================================================== *)

(** The [k]-th block of [b] consecutive elements of [l]. *)
Definition block {A} (b k : nat) (l : list A) : list A :=
  firstn b (skipn (k * b) l).

(** Number of iterations of the outer loop of [analyze_batch]. *)
Definition batch_count {W} (self : SentimentAnalyzer W) (texts : list string)
  : nat :=
  Z.to_nat (range_length 0 (Z.of_nat (length texts)) (batch_size self)).

(** Arithmetic mean of a list of scores. *)
Definition mean (l : list Q) : Q :=
  (sum_scores l / inject_Z (Z.of_nat (length l)))%Q.

(** The labels the summary counts. *)
Definition known_label (r : result) : Prop :=
  label r = "POSITIVE" \/ label r = "NEGATIVE".

(** The inner loop as a zip of texts and rows, without accumulator: [rows]
    are the rows of a tensor of [n] rows from position [j] on. *)
Fixpoint classify_rows_at (j n : nat) (batch_texts : list string) (rows : tensor)
  : result_of (list result) :=
  match batch_texts with
  | [] => ok []
  | text :: batch_texts' =>
      match rows with
      | [] => raise (index_error j n)
      | row :: rows' =>
          rbind (classify_row text row) (fun r =>
          rbind (classify_rows_at (S j) n batch_texts' rows') (fun rs =>
          ok (r :: rs)))
      end
  end.

Definition classify_rows (batch_texts : list string) (scores : tensor)
  : result_of (list result) :=
  classify_rows_at 0 (length scores) batch_texts scores.

Section Runs.
Context {W : Type}.
Variable softmax : list Q -> list Q.
Variable asyncio_sleep : W -> W.

(** The outer loop, driven by the slices instead of their start indices. *)
Fixpoint run_batches (self : SentimentAnalyzer W) (chunks : list (list string))
         (results : list result) : M W (list result) :=
  match chunks with
  | [] => ret results
  | c :: chunks' =>
      (results' <- batch_step softmax asyncio_sleep self c results ;;
       run_batches self chunks' results')%handler
  end.

(** The model scores every text on its own, whatever batch it is in and
    whatever happened before: [logits_of] gives the logits of one text. *)
Definition itemwise (self : SentimentAnalyzer W) (logits_of : string -> list Q)
  : Prop :=
  forall c w, fst (forward self c w) = inr (map logits_of c).

(** The model never raises and returns one row per text of the batch, none
    of which softmax leaves empty. *)
Definition well_shaped (self : SentimentAnalyzer W) : Prop :=
  forall c w, exists logits,
    fst (forward self c w) = inr logits /\
    length logits = length c /\
    Forall (fun row => softmax row <> []) logits.

(** The outcome of a model call depends on the batch of texts only. *)
Definition deterministic (self : SentimentAnalyzer W) : Prop :=
  forall c w1 w2, fst (forward self c w1) = fst (forward self c w2).

(** [softmax] turns the logits of every text into a distribution over
    two classes. *)
Definition two_class (logits_of : string -> list Q) : Prop :=
  forall t, exists p0 p1,
    softmax (logits_of t) = [p0; p1] /\
    (0 <= p0)%Q /\ (0 <= p1)%Q /\ (p0 + p1 == 1)%Q.
End Runs.

(* ===================================================================== *)
(** ** A concrete analyzer and concrete uploads, to run the definitions *)
(* ===================================================================== *)

Module Demo.
(** The outside world is a counter of model calls and yields. *)
Definition world : Type := nat.

Definition asyncio_sleep (w : world) : world := S w.

(** A rational stand-in for the exponential: positive and increasing. *)
Definition weight (x : Q) : Q :=
  if Qle_bool 0 x then (1 + x)%Q else (1 / (1 - x))%Q.

(** Normalisation of a row by the sum of its weights. *)
Definition softmax (row : list Q) : list Q :=
  let total := sum_scores (map weight row) in
  map (fun x => (weight x / total)%Q) row.

(** Two logits per text: the length of the text against the constant 3. *)
Definition logits_of (t : string) : list Q :=
  [inject_Z (Z.of_nat (String.length t)); 3%Q].

Definition forward (c : list string) : M world tensor :=
  fun w => (inr (map logits_of c), S w).

Definition analyzer (batch_size : Z) : SentimentAnalyzer world :=
  mkSentimentAnalyzer forward batch_size.

(** A model that raises on every batch that holds the text "boom". *)
Definition out_of_memory : exn :=
  LibraryError "RuntimeError" "CUDA out of memory".

Definition forward_or_raise (c : list string) : M world tensor :=
  fun w =>
    if existsb (String.eqb "boom") c then (inl out_of_memory, w)
    else forward c w.

Definition fragile_analyzer (batch_size : Z) : SentimentAnalyzer world :=
  mkSentimentAnalyzer forward_or_raise batch_size.

(** A model whose rows depend on the batch a text is in: the second logit
    is the length of the longest text of the batch. *)
Definition longest (c : list string) : nat :=
  fold_right Nat.max 0%nat (map String.length c).

Definition forward_padded (c : list string) : M world tensor :=
  fun w =>
    (inr (map (fun t => [inject_Z (Z.of_nat (String.length t));
                         inject_Z (Z.of_nat (longest c))]) c),
     S w).

Definition padded_analyzer (batch_size : Z) : SentimentAnalyzer world :=
  mkSentimentAnalyzer forward_padded batch_size.

Definition five_texts : list string := ["a"; "bbbb"; "cc"; "ddddd"; "eee"].

Definition newline : string := String (Ascii.ascii_of_nat 10) EmptyString.

(** The upload [text\nhello\n]: a CSV without a [review] column. *)
Definition csv_without_review : string := "text" ++ newline ++ "hello" ++ newline.

(** The upload [review\n]: a header and no row. *)
Definition csv_header_only : string := "review" ++ newline.

(** The upload [id,review\n1,great product\n2,\n]. *)
Definition csv_two_reviews : string :=
  "id,review" ++ newline ++ "1,great product" ++ newline ++ "2," ++ newline.

(** What pandas makes of the three uploads above; any other content is
    taken as unreadable. *)
Definition read_csv (content : string) : result_of DataFrame :=
  if String.eqb content csv_without_review then
    ok (mkDataFrame ["text"] [[Some "hello"]])
  else if String.eqb content csv_header_only then
    ok (mkDataFrame ["review"] [])
  else if String.eqb content csv_two_reviews then
    ok (mkDataFrame ["id"; "review"]
                    [[Some "1"; Some "great product"]; [Some "2"; None]])
  else raise (LibraryError "ParserError" "Error tokenizing data").

(** [str(e)]: the message, and for an [HTTPException] the status code, a
    colon and the detail. *)
Definition str_of_exn (e : exn) : string :=
  match e with
  | HTTPException status_code detail =>
      str_of_int status_code ++ ": " ++ detail
  | ValueError msg | IndexError msg | ZeroDivisionError msg => msg
  | LibraryError _ msg => msg
  end.

(** [POST /analyze] with this analyzer (default batch size 16). *)
Definition post_analyze (filename content : string) : M world Response :=
  analyze_reviews softmax asyncio_sleep read_csv str_of_exn (analyzer 16)
                  filename content.
End Demo.

(* ===================================================================== *)
(** ** models.py: the single-text entry point *)
(* ===================================================================== *)

Section SingleText.
Context {W : Type}.
Variable softmax : list Q -> list Q.

(** [analyze_text].  The tokenizer is called on one string, which yields
    the tensors of a batch holding that text alone, so the model call is
    [forward self [text]].  [scores.argmax()] has no [dim]: it is taken
    over the flattened tensor; the score is then read in row 0.  There is
    no yield in this method. *)
Definition analyze_text (self : SentimentAnalyzer W) (text : string)
  : M W result :=
  (logits <- forward self [text] ;;
   let scores := map softmax logits in
   lift (rbind (argmax (concat scores)) (fun sentiment_id =>
         let label := if (sentiment_id =? 0)%nat then "NEGATIVE" else "POSITIVE" in
         rbind (getitem scores 0%nat) (fun row0 =>
         rbind (getitem row0 sentiment_id) (fun score =>
         ok (mkResult text label score))))))%handler.
End SingleText.

(** The texts [analyze_reviews] hands to the analyzer for a frame: the
    cells of the first [review] column, a missing cell (or a row too short
    to have one) read as the empty string. *)
Definition review_texts (df : DataFrame) : list string :=
  match column_index "review" (columns df) with
  | None => []
  | Some k => map (fun row => clean_cell (nth k row None)) (rows df)
  end.

(** The frame after [df['review'] = df['review'].fillna('').astype(str)]. *)
Definition cleaned (df : DataFrame) : DataFrame :=
  match get_column "review" df with
  | inl _ => df
  | inr review =>
      assign_column "review" (map (fun c => Some (clean_cell c)) review) df
  end.

(** More concrete material, used to run the properties of the rest of the
    code. *)
Module Samples.
(** A model that reads the outside world and leaves it as it is. *)
Definition quiet_forward (c : list string) : M Demo.world tensor :=
  fun w => (inr (map Demo.logits_of c), w).

Definition quiet_analyzer (batch_size : Z) : SentimentAnalyzer Demo.world :=
  mkSentimentAnalyzer quiet_forward batch_size.

(** A model that returns no row at all. *)
Definition silent_forward (c : list string) : M Demo.world tensor :=
  fun w => (inr [], S w).

Definition silent_analyzer (batch_size : Z) : SentimentAnalyzer Demo.world :=
  mkSentimentAnalyzer silent_forward batch_size.

(** The frame pandas makes of [Demo.csv_two_reviews]. *)
Definition two_reviews : DataFrame :=
  mkDataFrame ["id"; "review"]
              [[Some "1"; Some "great product"]; [Some "2"; None]].

(** An upload holding the text on which [Demo.forward_or_raise] raises. *)
Definition csv_boom : string := "review" ++ Demo.newline ++ "boom" ++ Demo.newline.

Definition read_csv (content : string) : result_of DataFrame :=
  if String.eqb content csv_boom then
    ok (mkDataFrame ["review"] [[Some "boom"]])
  else Demo.read_csv content.

(** Three results with scores between 1/2 and 1. *)
Definition mixed_results : list result :=
  [mkResult "great" "POSITIVE" (3 # 4); mkResult "bad" "NEGATIVE" (9 # 10);
   mkResult "fine" "POSITIVE" (1 # 2)].
End Samples.

(* ===================================================================== *)
(** ** Facts about the Python runtime *)
(* ===================================================================== *)

Lemma rbind_ok {A B} (r : result_of A) (k : A -> result_of B) (b : B) :
  rbind r k = inr b -> exists a, r = inr a /\ k a = inr b.
Proof.
  destruct r as [e|a]; simpl; [discriminate|]. intros H. now exists a.
Qed.

Lemma firstn_add_skipn {A} (a b : nat) (l : list A) :
  firstn (a + b) l = firstn a l ++ firstn b (skipn a l).
Proof.
  revert l. induction a as [|a IH]; intros l; simpl; [reflexivity|].
  destruct l as [|x l]; simpl.
  - now rewrite firstn_nil.
  - now rewrite IH.
Qed.

(** The first [m] blocks, glued together, are the first [m * b] elements. *)
Lemma concat_blocks {A} (b m : nat) (l : list A) :
  concat (map (fun k => block b k l) (seq 0 m)) = firstn (m * b) l.
Proof.
  induction m as [|m IH].
  - reflexivity.
  - rewrite seq_S, map_app, concat_app, IH. simpl.
    rewrite app_nil_r. unfold block.
    replace (b + m * b)%nat with (m * b + b)%nat by lia.
    now rewrite firstn_add_skipn.
Qed.

Lemma block_length {A} (b k : nat) (l : list A) :
  length (block b k l) = Nat.min b (length l - k * b).
Proof.
  unfold block. now rewrite length_firstn, length_skipn.
Qed.

(** For a positive step, [range(0, n, step)] has [ceil(n / step)] elements. *)
Lemma range_length_pos (n step : Z) :
  0 < step -> 0 <= n ->
  let m := range_length 0 n step in
  0 <= m /\ (m - 1) * step < n \/ n = 0 /\ m = 0.
Proof.
  intros Hstep Hn. unfold range_length.
  destruct (Z.ltb_spec 0 step) as [_|]; [|lia].
  destruct (Z.ltb_spec 0 n) as [Hpos|Hz]; [left|right; lia].
  rewrite Z.sub_0_r.
  assert (0 <= (n - 1) / step) by (apply Z.div_pos; lia).
  split; [lia|].
  replace ((n - 1) / step + 1 - 1) with ((n - 1) / step) by lia.
  pose proof (Z.mul_div_le (n - 1) step Hstep). lia.
Qed.

Lemma range_length_covers (n step : Z) :
  0 < step -> 0 <= n -> n <= range_length 0 n step * step.
Proof.
  intros Hstep Hn. unfold range_length.
  destruct (Z.ltb_spec 0 step) as [_|]; [|lia].
  destruct (Z.ltb_spec 0 n) as [Hpos|Hz]; [|lia].
  rewrite Z.sub_0_r.
  pose proof (Z.mod_pos_bound (n - 1) step Hstep) as Hm.
  pose proof (Z.div_mod (n - 1) step ltac:(lia)) as Hd.
  nia.
Qed.

Lemma py_range_pos (n step : Z) :
  0 < step ->
  py_range 0 n step =
  inr (map (fun k : nat => Z.of_nat k * step)
           (seq 0 (Z.to_nat (range_length 0 n step)))).
Proof.
  intros Hstep. unfold py_range.
  destruct (Z.eqb_spec step 0) as [->|_]; [lia|].
  unfold ok. f_equal.
Qed.

(** A slice that starts inside the list at a multiple of the width is a
    block. *)
Lemma py_slice_block {A} (l : list A) (b k : nat) :
  (0 < b)%nat -> (k * b <= length l)%nat ->
  py_slice l (Z.of_nat k * Z.of_nat b) (Z.of_nat k * Z.of_nat b + Z.of_nat b)
  = block b k l.
Proof.
  intros Hb Hk. unfold py_slice, clamp_index, block.
  destruct (Z.ltb_spec (Z.of_nat k * Z.of_nat b) 0) as [|_]; [lia|].
  destruct (Z.ltb_spec (Z.of_nat k * Z.of_nat b + Z.of_nat b) 0) as [|_]; [lia|].
  rewrite (Z.min_l (Z.of_nat k * Z.of_nat b)) by lia.
  replace (Z.to_nat (Z.of_nat k * Z.of_nat b)) with (k * b)%nat by lia.
  destruct (Z.le_ge_cases (Z.of_nat k * Z.of_nat b + Z.of_nat b) (Z.of_nat (length l)))
    as [Hin|Hout].
  - rewrite Z.min_l by lia. f_equal. lia.
  - rewrite Z.min_r by lia.
    rewrite (firstn_all2 (n := b)) by (rewrite length_skipn; lia).
    apply firstn_all2. rewrite length_skipn. lia.
Qed.

(* ===================================================================== *)
(** ** The batches of [analyze_batch] *)
(* ===================================================================== *)

Section BatchFacts.
Context {W : Type}.
Variable self : SentimentAnalyzer W.
Variable texts : list string.
Hypothesis batch_size_pos : 1 <= batch_size self.

Local Abbreviation b := (Z.to_nat (batch_size self)).
Local Abbreviation m := (batch_count self texts).

Lemma batch_count_bounds :
  (length texts <= m * b)%nat /\ (m = 0 \/ (m - 1) * b < length texts)%nat.
Proof.
  unfold batch_count.
  pose proof (range_length_covers (Z.of_nat (length texts)) (batch_size self)
                ltac:(lia) ltac:(lia)) as Hc.
  pose proof (range_length_pos (Z.of_nat (length texts)) (batch_size self)
                ltac:(lia) ltac:(lia)) as Hp.
  cbv zeta in Hp.
  destruct Hp as [[H0 H1]|[Hn H0]].
  - split.
    + apply Nat2Z.inj_le. rewrite Nat2Z.inj_mul, !Z2Nat.id by lia. exact Hc.
    + destruct (Z.eq_dec (range_length 0 (Z.of_nat (length texts))
                                       (batch_size self)) 0) as [Hz|Hnz].
      * left. now rewrite Hz.
      * right. apply Nat2Z.inj_lt.
        rewrite Nat2Z.inj_mul, Nat2Z.inj_sub, !Z2Nat.id by lia.
        exact H1.
  - rewrite H0 in *. split; [lia|]. now left.
Qed.

Lemma batches_blocks :
  batches self texts = map (fun k => block b k texts) (seq 0 m).
Proof.
  unfold batches. rewrite py_range_pos by lia. rewrite map_map.
  apply map_ext_in. intros k Hk. apply in_seq in Hk.
  unfold batch_at.
  replace (batch_size self) with (Z.of_nat b) at 1 2 3 by lia.
  apply py_slice_block; [lia|].
  destruct batch_count_bounds as [_ [Hm|Hm]]; unfold batch_count in *; [lia|].
  nia.
Qed.

Lemma length_batches : length (batches self texts) = m.
Proof. now rewrite batches_blocks, length_map, length_seq. Qed.

Lemma concat_batches : concat (batches self texts) = texts.
Proof.
  rewrite batches_blocks, concat_blocks.
  apply firstn_all2. apply batch_count_bounds.
Qed.

Lemma nth_batches (k : nat) (c : list string) :
  nth_error (batches self texts) k = Some c ->
  (k < m)%nat /\ c = block b k texts.
Proof.
  rewrite batches_blocks. intros H.
  assert (Hk : (k < m)%nat).
  { assert (Hs : nth_error (map (fun k => block b k texts) (seq 0 m)) k <> None)
      by congruence.
    apply nth_error_Some in Hs. now rewrite length_map, length_seq in Hs. }
  split; [exact Hk|].
  rewrite nth_error_map in H.
  rewrite (nth_error_nth' _ 0%nat) in H by (now rewrite length_seq).
  rewrite seq_nth in H by exact Hk. simpl in H. now inversion H.
Qed.
End BatchFacts.

(* ===================================================================== *)
(** ** The inner loop: one row per text *)
(* ===================================================================== *)

Lemma tl_skipn {A} (j : nat) (l : list A) : tl (skipn j l) = skipn (S j) l.
Proof.
  change (S j) with (1 + j)%nat. rewrite <- skipn_skipn.
  now destruct (skipn j l).
Qed.

Lemma argmax_from_bound (row : list Q) (best_i i : nat) (best : Q) :
  (best_i < i)%nat -> (argmax_from best_i best i row < i + length row)%nat.
Proof.
  revert best_i best i. induction row as [|x row IH]; intros best_i best i Hlt; simpl.
  - lia.
  - destruct (Qle_bool x best).
    + specialize (IH best_i best (S i)). lia.
    + specialize (IH i x (S i)). lia.
Qed.

Lemma classify_row_nonempty (t : string) (row : list Q) :
  row <> [] -> exists r, classify_row t row = inr r.
Proof.
  destruct row as [|x row]; [congruence|]. intros _.
  unfold classify_row. simpl argmax. unfold ok. simpl rbind.
  pose proof (argmax_from_bound row 0 1 x ltac:(lia)) as Hb.
  unfold getitem.
  destruct (nth_error (x :: row) (argmax_from 0 x 1 row)) as [v|] eqn:Hn.
  - simpl. eauto.
  - apply nth_error_None in Hn. simpl in Hn. lia.
Qed.

Lemma classify_row_inv (t : string) (row : list Q) (r : result) :
  classify_row t row = inr r ->
  text r = t /\ (label r = "NEGATIVE" \/ label r = "POSITIVE") /\ In (score r) row.
Proof.
  unfold classify_row. intros H.
  apply rbind_ok in H. destruct H as [sid [_ H]].
  apply rbind_ok in H. destruct H as [v [Hv H]].
  inversion H; subst r; simpl.
  split; [reflexivity|]. split.
  - destruct (sid =? 0)%nat; auto.
  - unfold getitem in Hv. destruct (nth_error row sid) eqn:Hn; [|discriminate].
    inversion Hv; subst. eapply nth_error_In; eauto.
Qed.

(** On a row of two entries, ties go to index 0. *)
Lemma classify_row_pair (t : string) (p0 p1 : Q) :
  classify_row t [p0; p1] =
  inr (if Qle_bool p1 p0 then mkResult t "NEGATIVE" p0
       else mkResult t "POSITIVE" p1).
Proof.
  unfold classify_row. simpl. now destruct (Qle_bool p1 p0).
Qed.

Section InnerLoop.
Variable scores : tensor.

(** The loop with its accumulator appends what the zip produces, and
    raises what the zip raises. *)
Lemma enumerate_loop_classify_rows_at (ts : list string) :
  forall (j : nat) (rs : list result),
    enumerate_loop scores j ts rs =
    rbind (classify_rows_at j (length scores) ts (skipn j scores))
          (fun new => ok (rs ++ new)).
Proof.
  induction ts as [|t ts IH]; intros j rs; cbn [enumerate_loop classify_rows_at].
  - unfold ok. cbn [rbind]. now rewrite app_nil_r.
  - unfold getitem. rewrite <- hd_error_skipn.
    pose proof (tl_skipn j scores) as Htl.
    destruct (skipn j scores) as [|row rest]; cbn [hd_error]; [reflexivity|].
    cbn [tl] in Htl. subst rest. unfold ok at 1. cbn [rbind].
    destruct (classify_row t row) as [e|r]; cbn [rbind]; [reflexivity|].
    rewrite IH.
    destruct (classify_rows_at (S j) (length scores) ts (skipn (S j) scores))
      as [e|new]; cbn [rbind]; [reflexivity|].
    unfold ok. cbn [rbind]. now rewrite <- app_assoc.
Qed.

Lemma enumerate_loop_classify_rows (ts : list string) (rs : list result) :
  enumerate_loop scores 0 ts rs =
  rbind (classify_rows ts scores) (fun new => ok (rs ++ new)).
Proof. apply enumerate_loop_classify_rows_at. Qed.
End InnerLoop.

(** What the zip returns, entry by entry. *)
Lemma classify_rows_at_inv (ts : list string) :
  forall (j n : nat) (rows : tensor) (new : list result),
    classify_rows_at j n ts rows = inr new ->
    length new = length ts /\
    forall i r, nth_error new i = Some r ->
      exists t row, nth_error ts i = Some t /\ nth_error rows i = Some row /\
                    classify_row t row = inr r.
Proof.
  induction ts as [|t ts IH]; intros j n rows new H; simpl in H.
  - inversion H; subst. split; [reflexivity|].
    intros i r Hi. destruct i; discriminate.
  - destruct rows as [|row rows]; [discriminate|].
    apply rbind_ok in H. destruct H as [r0 [Hr0 H]].
    apply rbind_ok in H. destruct H as [rest [Hrest H]].
    inversion H; subst new. clear H.
    destruct (IH _ _ _ _ Hrest) as [Hlen Hnth].
    split; [simpl; now rewrite Hlen|].
    intros [|i] r Hi; simpl in Hi.
    + inversion Hi; subst. exists t, row. auto.
    + destruct (Hnth i r Hi) as [t' [row' [? [? ?]]]].
      exists t', row'. auto.
Qed.

Lemma classify_rows_inv (ts : list string) :
  forall (rows : tensor) (new : list result),
    classify_rows ts rows = inr new ->
    length new = length ts /\
    forall i r, nth_error new i = Some r ->
      exists t row, nth_error ts i = Some t /\ nth_error rows i = Some row /\
                    classify_row t row = inr r.
Proof.
  intros rows new H. exact (classify_rows_at_inv ts _ _ rows new H).
Qed.

(** When the rows are those of the texts themselves and none is empty, the
    zip succeeds and gives every text its own classification. *)
Lemma classify_rows_at_map (probs_of : string -> list Q) (ts : list string) :
  (forall t, probs_of t <> []) ->
  forall j n,
  exists new,
    classify_rows_at j n ts (map probs_of ts) = inr new /\
    Forall2 (fun t r => classify_row t (probs_of t) = inr r) ts new.
Proof.
  intros Hne. induction ts as [|t ts IH]; intros j n; simpl.
  - exists []. split; [reflexivity|constructor].
  - destruct (classify_row_nonempty t (probs_of t) (Hne t)) as [r Hr].
    destruct (IH (S j) n) as [new [Hnew HF]].
    rewrite Hr. simpl. rewrite Hnew. simpl.
    exists (r :: new). split; [reflexivity|]. now constructor.
Qed.

Lemma classify_rows_map (probs_of : string -> list Q) (ts : list string) :
  (forall t, probs_of t <> []) ->
  exists new,
    classify_rows ts (map probs_of ts) = inr new /\
    Forall2 (fun t r => classify_row t (probs_of t) = inr r) ts new.
Proof.
  intros Hne. apply classify_rows_at_map. exact Hne.
Qed.

(** With one non-empty row per text the zip succeeds and keeps the texts
    in order. *)
Lemma classify_rows_at_total (ts : list string) :
  forall (j n : nat) (rows : tensor),
    length rows = length ts ->
    Forall (fun row => row <> []) rows ->
    exists new, classify_rows_at j n ts rows = inr new /\ map text new = ts.
Proof.
  induction ts as [|t ts IH]; intros j n rows Hlen Hne.
  - exists []. now split.
  - destruct rows as [|row rows]; [discriminate|].
    inversion Hne as [|? ? Hrow Hrows]; subst.
    destruct (classify_row_nonempty t row Hrow) as [r Hr].
    destruct (IH (S j) n rows ltac:(simpl in Hlen; lia) Hrows)
      as [new [Hnew Htexts]].
    exists (r :: new). simpl. rewrite Hr. simpl.
    rewrite Hnew. simpl. split; [reflexivity|].
    apply classify_row_inv in Hr. destruct Hr as [-> _]. now rewrite Htexts.
Qed.

Lemma classify_rows_total (ts : list string) :
  forall rows : tensor,
    length rows = length ts ->
    Forall (fun row => row <> []) rows ->
    exists new, classify_rows ts rows = inr new /\ map text new = ts.
Proof.
  intros rows Hlen Hne. now apply classify_rows_at_total.
Qed.

(* ===================================================================== *)
(** ** The outer loop *)
(* ===================================================================== *)

Section OuterLoop.
Context {W : Type}.
Variable softmax : list Q -> list Q.
Variable asyncio_sleep : W -> W.
Variable self : SentimentAnalyzer W.

Local Abbreviation step := (batch_step softmax asyncio_sleep self).
Local Abbreviation run := (run_batches softmax asyncio_sleep self).
Local Abbreviation analyze := (analyze_batch softmax asyncio_sleep self).

(** One iteration, case by case. *)
Lemma batch_step_unfold (c : list string) (rs : list result) (w : W) :
  step c rs w =
  match forward self c w with
  | (inl e, w1) => (inl e, w1)
  | (inr logits, w1) =>
      match classify_rows c (map softmax logits) with
      | inl e => (inl e, w1)
      | inr new => (inr (rs ++ new), asyncio_sleep w1)
      end
  end.
Proof.
  unfold batch_step, sleep, bind, lift, ret.
  destruct (forward self c w) as [[e|logits] w1]; [reflexivity|].
  rewrite enumerate_loop_classify_rows.
  now destruct (classify_rows c (map softmax logits)).
Qed.

Lemma batch_loop_run_batches (texts : list string) (starts : list Z) :
  forall rs w,
    batch_loop softmax asyncio_sleep self texts starts rs w =
    run (map (batch_at self texts) starts) rs w.
Proof.
  induction starts as [|i starts IH]; intros rs w; simpl; [reflexivity|].
  unfold bind. destruct (step _ rs w) as [[e|rs'] w1]; [reflexivity|].
  apply IH.
Qed.

(** With a non-zero batch size, [analyze_batch] runs the model on the
    slices [batches], in order, starting from the empty result list. *)
Lemma analyze_batch_run (texts : list string) (w : W) :
  batch_size self <> 0 ->
  analyze texts w = run (batches self texts) [] w.
Proof.
  intros Hnz. unfold analyze_batch, batches, py_range, bind, lift.
  destruct (Z.eqb_spec (batch_size self) 0) as [|_]; [contradiction|].
  unfold ok. apply batch_loop_run_batches.
Qed.

Lemma run_batches_app (pre post : list (list string)) :
  forall rs w,
    run (pre ++ post) rs w =
    match run pre rs w with
    | (inl e, w1) => (inl e, w1)
    | (inr rs1, w1) => run post rs1 w1
    end.
Proof.
  induction pre as [|c pre IH]; intros rs w; simpl; [reflexivity|].
  unfold bind. destruct (step c rs w) as [[e|rs'] w1]; [reflexivity|].
  apply IH.
Qed.

(** Every property of single classifications holds of all results. *)
Lemma run_batches_invariant (P : result -> Prop) :
  (forall t row r, classify_row t row = inr r -> P r) ->
  forall chunks rs w out w',
    Forall P rs ->
    run chunks rs w = (inr out, w') ->
    Forall P out.
Proof.
  intros HP. induction chunks as [|c chunks IH]; intros rs w out w' Hrs H.
  - simpl in H. unfold ret in H. now inversion H; subst.
  - simpl in H. unfold bind in H. rewrite batch_step_unfold in H.
    destruct (forward self c w) as [[e|logits] w1]; [discriminate|].
    destruct (classify_rows c (map softmax logits)) as [e|new] eqn:Hnew;
      [discriminate|].
    eapply IH; [|exact H].
    apply Forall_app. split; [exact Hrs|].
    apply classify_rows_inv in Hnew. destruct Hnew as [_ Hnth].
    apply Forall_forall. intros r Hin.
    apply In_nth_error in Hin. destruct Hin as [i Hi].
    destruct (Hnth i r Hi) as [t [row [_ [_ Hc]]]]. eauto.
Qed.

(** A batch on which the model raises makes the whole run raise. *)
Lemma run_batches_raises (c : list string) :
  (forall w, exists e, fst (forward self c w) = inl e) ->
  forall chunks rs w,
    In c chunks -> exists e, fst (run chunks rs w) = inl e.
Proof.
  intros Hc. induction chunks as [|c0 chunks IH]; intros rs w Hin; [easy|].
  simpl. unfold bind. rewrite batch_step_unfold.
  destruct (forward self c0 w) as [[e|logits] w1] eqn:Hf; [simpl; eauto|].
  destruct (classify_rows c0 (map softmax logits)) as [e|new]; [simpl; eauto|].
  destruct Hin as [->|Hin]; [|now apply IH].
  destruct (Hc w) as [e He]. rewrite Hf in He. discriminate.
Qed.

(** The outcome of a run does not depend on the state it starts in when
    the model's outcome does not. *)
Lemma run_batches_deterministic :
  deterministic self ->
  forall chunks rs w1 w2,
    fst (run chunks rs w1) = fst (run chunks rs w2).
Proof.
  intros Hdet. induction chunks as [|c chunks IH]; intros rs w1 w2;
    [reflexivity|].
  simpl. unfold bind. rewrite !batch_step_unfold.
  pose proof (Hdet c w1 w2) as Hc.
  destruct (forward self c w1) as [[e1|l1] u1];
    destruct (forward self c w2) as [[e2|l2] u2]; simpl in Hc;
    try discriminate; inversion Hc; subst; [reflexivity|].
  destruct (classify_rows c (map softmax l2)); [reflexivity|]. apply IH.
Qed.

(** With a model that scores item by item, a run over any list of slices
    classifies the texts of the slices one by one, in order. *)
Lemma run_batches_itemwise (logits_of : string -> list Q) :
  itemwise self logits_of ->
  (forall t, softmax (logits_of t) <> []) ->
  forall chunks rs w,
  exists new,
    fst (run chunks rs w) = inr (rs ++ new) /\
    Forall2 (fun t r => classify_row t (softmax (logits_of t)) = inr r)
            (concat chunks) new.
Proof.
  intros Hitem Hne. induction chunks as [|c chunks IH]; intros rs w.
  - exists []. simpl. rewrite app_nil_r. split; [reflexivity|constructor].
  - simpl. unfold bind. rewrite batch_step_unfold.
    pose proof (Hitem c w) as Hc.
    destruct (forward self c w) as [[e|logits] w1]; simpl in Hc;
      [discriminate|].
    inversion Hc; subst logits. rewrite map_map.
    destruct (classify_rows_map (fun t => softmax (logits_of t)) c Hne)
      as [new1 [Hnew1 HF1]].
    rewrite Hnew1.
    destruct (IH (rs ++ new1) (asyncio_sleep w1)) as [new2 [Hnew2 HF2]].
    exists (new1 ++ new2). rewrite Hnew2, app_assoc.
    split; [reflexivity|]. now apply Forall2_app.
Qed.

(** With a model that never raises and returns one row per text, a run
    over any list of slices returns one result per text, in order. *)
Lemma run_batches_well_shaped :
  well_shaped softmax self ->
  forall chunks rs w,
  exists new,
    fst (run chunks rs w) = inr (rs ++ new) /\
    map text new = concat chunks.
Proof.
  intros Hshape. induction chunks as [|c chunks IH]; intros rs w.
  - exists []. simpl. rewrite app_nil_r. now split.
  - simpl. unfold bind. rewrite batch_step_unfold.
    destruct (Hshape c w) as [logits [Hc [Hlen Hrows]]].
    destruct (forward self c w) as [[e|logits'] w1]; simpl in Hc;
      [discriminate|].
    inversion Hc; subst logits'.
    destruct (classify_rows_total c (map softmax logits)) as [new1 [Hnew1 Ht1]].
    { now rewrite length_map. }
    { now apply Forall_map. }
    rewrite Hnew1.
    destruct (IH (rs ++ new1) (asyncio_sleep w1)) as [new2 [Hnew2 Ht2]].
    exists (new1 ++ new2). rewrite Hnew2, app_assoc.
    split; [reflexivity|]. now rewrite map_app, Ht1, Ht2.
Qed.
End OuterLoop.

(* ===================================================================== *)
(** ** Properties of [analyze_batch] *)
(* ===================================================================== *)

Lemma Forall2_nth_error_l {A B} (R : A -> B -> Prop) (l : list A) (l' : list B) :
  Forall2 R l l' ->
  forall i a, nth_error l i = Some a ->
    exists b, nth_error l' i = Some b /\ R a b.
Proof.
  induction 1 as [|x y l l' Hxy _ IH]; intros i a Hi.
  - destruct i; discriminate.
  - destruct i as [|i]; simpl in *.
    + inversion Hi; subst. eauto.
    + eauto.
Qed.

Lemma Forall2_functional {A B} (R : A -> B -> Prop) :
  (forall a b b', R a b -> R a b' -> b = b') ->
  forall l l1 l2, Forall2 R l l1 -> Forall2 R l l2 -> l1 = l2.
Proof.
  intros Hfun l l1 l2 H1. revert l2.
  induction H1 as [|x y l l1 Hxy _ IH]; intros l2 H2; inversion H2; subst.
  - reflexivity.
  - f_equal; eauto.
Qed.

Section Engine.
Context {W : Type}.
Variable softmax : list Q -> list Q.
Variable asyncio_sleep : W -> W.

Local Abbreviation analyze := (analyze_batch softmax asyncio_sleep).
Local Abbreviation run := (run_batches softmax asyncio_sleep).

(** The result list of an item-wise model, for any positive batch size. *)
Lemma analyze_batch_itemwise (self : SentimentAnalyzer W)
      (logits_of : string -> list Q) (texts : list string) (w : W) :
  1 <= batch_size self ->
  itemwise self logits_of ->
  (forall t, softmax (logits_of t) <> []) ->
  exists results,
    fst (analyze self texts w) = inr results /\
    Forall2 (fun t r => classify_row t (softmax (logits_of t)) = inr r)
            texts results.
Proof.
  intros Hbs Hitem Hne.
  rewrite analyze_batch_run by lia.
  destruct (run_batches_itemwise softmax asyncio_sleep self logits_of Hitem Hne
              (batches self texts) [] w) as [new [Hrun HF]].
  rewrite concat_batches in HF by exact Hbs.
  exists new. now split.
Qed.

(** Length and order need less of the model: it is enough that it never
    raises and returns one non-empty row per text of each batch. *)
Lemma analyze_batch_well_shaped (self : SentimentAnalyzer W)
      (texts : list string) (w : W) :
  1 <= batch_size self ->
  well_shaped softmax self ->
  exists results,
    fst (analyze self texts w) = inr results /\
    map text results = texts /\
    length results = length texts.
Proof.
  intros Hbs Hshape.
  rewrite analyze_batch_run by lia.
  destruct (run_batches_well_shaped softmax asyncio_sleep self Hshape
              (batches self texts) [] w) as [new [Hrun Htexts]].
  rewrite concat_batches in Htexts by exact Hbs.
  exists new. split; [exact Hrun|]. split; [exact Htexts|].
  apply (f_equal (@length string)) in Htexts.
  now rewrite length_map in Htexts.
Qed.

(** C1.  For a batch size of at least 1 and a model that scores each text
    on its own, [analyze_batch] returns a list as long as its input, and
    its [i]-th entry is the classification of the [i]-th text (the text
    itself, with the label and the score drawn from that text's row),
    wherever the batch boundaries fall. *)
Theorem analyze_batch_length_order (self : SentimentAnalyzer W)
        (logits_of : string -> list Q) (texts : list string) (w : W) :
  1 <= batch_size self ->
  itemwise self logits_of ->
  (forall t, softmax (logits_of t) <> []) ->
  exists results,
    fst (analyze self texts w) = inr results /\
    length results = length texts /\
    forall i t, nth_error texts i = Some t ->
      exists r, nth_error results i = Some r /\ text r = t /\
                classify_row t (softmax (logits_of t)) = inr r.
Proof.
  intros Hbs Hitem Hne.
  destruct (analyze_batch_itemwise self logits_of texts w Hbs Hitem Hne)
    as [results [Hrun HF]].
  exists results. split; [exact Hrun|]. split.
  - symmetry. eapply Forall2_length; eauto.
  - intros i t Hi.
    destruct (Forall2_nth_error_l _ _ _ HF i t Hi) as [r [Hr Hc]].
    exists r. split; [exact Hr|]. split; [|exact Hc].
    now apply classify_row_inv in Hc.
Qed.

(** C3.  For a batch size of at least 1 the slices formed by
    [analyze_batch] are the consecutive blocks of the input: glued
    together they give back the input, the [k]-th slice starts at
    position [k * batch_size] and holds between 1 and [batch_size] texts,
    every slice but the last holds exactly [batch_size] texts, and the
    model is run on these slices in this order. *)
Theorem batches_partition (self : SentimentAnalyzer W) (texts : list string) :
  1 <= batch_size self ->
  let b := Z.to_nat (batch_size self) in
  concat (batches self texts) = texts /\
  (forall k c, nth_error (batches self texts) k = Some c ->
     c = firstn b (skipn (k * b) texts) /\
     (1 <= length c <= b)%nat /\
     (S k < length (batches self texts) -> length c = b)%nat) /\
  (forall w, analyze self texts w = run self (batches self texts) [] w).
Proof.
  intros Hbs b. split; [now apply concat_batches|]. split.
  - intros k c Hk.
    rewrite length_batches by exact Hbs.
    apply nth_batches in Hk; [|exact Hbs]. destruct Hk as [Hlt ->].
    fold b in Hlt |- *.
    split; [reflexivity|].
    rewrite block_length.
    destruct (batch_count_bounds self texts Hbs) as [_ [Hm|Hm]]; [lia|].
    fold b in Hm.
    assert (0 < b)%nat by (subst b; lia).
    split; [nia|]. intros Hnext. nia.
  - intros w. apply analyze_batch_run. lia.
Qed.

(** C4.  With a model that scores each text on its own, two analyzers
    that differ in their batch sizes (both at least 1) return the same
    list: same labels, same scores, item by item. *)
Theorem analyze_batch_batch_size_invariant
        (self1 self2 : SentimentAnalyzer W) (logits_of : string -> list Q)
        (texts : list string) (w1 w2 : W) :
  1 <= batch_size self1 ->
  1 <= batch_size self2 ->
  itemwise self1 logits_of ->
  itemwise self2 logits_of ->
  (forall t, softmax (logits_of t) <> []) ->
  exists results,
    fst (analyze self1 texts w1) = inr results /\
    fst (analyze self2 texts w2) = inr results.
Proof.
  intros Hb1 Hb2 Hi1 Hi2 Hne.
  destruct (analyze_batch_itemwise self1 logits_of texts w1 Hb1 Hi1 Hne)
    as [r1 [Hr1 HF1]].
  destruct (analyze_batch_itemwise self2 logits_of texts w2 Hb2 Hi2 Hne)
    as [r2 [Hr2 HF2]].
  exists r1. split; [exact Hr1|]. rewrite Hr2. f_equal.
  eapply Forall2_functional; [|exact HF2|exact HF1].
  intros t a a' Ha Ha'. congruence.
Qed.
End Engine.

Section EngineOutcomes.
Context {W : Type}.
Variable softmax : list Q -> list Q.
Variable asyncio_sleep : W -> W.

Local Abbreviation analyze := (analyze_batch softmax asyncio_sleep).
Local Abbreviation run := (run_batches softmax asyncio_sleep).

Lemma two_class_nonempty (logits_of : string -> list Q) :
  two_class softmax logits_of -> forall t, softmax (logits_of t) <> [].
Proof.
  intros H t. destruct (H t) as [p0 [p1 [E _]]]. rewrite E. discriminate.
Qed.

(** A returned list always comes from a run over some list of slices. *)
Lemma analyze_batch_returns (self : SentimentAnalyzer W) (texts : list string)
      (w w' : W) (results : list result) :
  analyze self texts w = (inr results, w') ->
  run self (batches self texts) [] w = (inr results, w').
Proof.
  destruct (Z.eq_dec (batch_size self) 0) as [Hz|Hnz].
  - unfold analyze_batch, py_range, bind, lift. rewrite Hz. simpl.
    discriminate.
  - now rewrite analyze_batch_run.
Qed.

(** C6.  With an item-wise model whose softmax rows are distributions
    over two classes, [analyze_batch] returns one item per text, and the
    item of a text whose row is [p0; p1] is labelled NEGATIVE exactly when
    index 0 carries a maximal probability ([p1 <= p0]) and POSITIVE
    otherwise, its score is the probability of the chosen class, that is
    the larger of the two, and the score is at least 1/2. *)
Theorem analyze_batch_argmax (self : SentimentAnalyzer W)
        (logits_of : string -> list Q) (texts : list string) (w : W) :
  1 <= batch_size self ->
  itemwise self logits_of ->
  two_class softmax logits_of ->
  exists results,
    fst (analyze self texts w) = inr results /\
    length results = length texts /\
    forall i t,
      nth_error texts i = Some t ->
      exists r p0 p1,
        nth_error results i = Some r /\
        text r = t /\
        softmax (logits_of t) = [p0; p1] /\
        (label r = "NEGATIVE" <-> (p1 <= p0)%Q) /\
        (label r = "POSITIVE" <-> ~ (p1 <= p0)%Q) /\
        (label r = "NEGATIVE" \/ label r = "POSITIVE") /\
        score r = (if Qle_bool p1 p0 then p0 else p1) /\
        (p0 <= score r)%Q /\ (p1 <= score r)%Q /\
        (1 # 2 <= score r)%Q.
Proof.
  intros Hbs Hitem H2.
  destruct (analyze_batch_itemwise softmax asyncio_sleep self logits_of texts w
              Hbs Hitem (two_class_nonempty logits_of H2)) as [results [Hrun HF]].
  exists results. split; [exact Hrun|].
  split; [symmetry; eapply Forall2_length; eauto|].
  intros i t Ht.
  destruct (Forall2_nth_error_l _ _ _ HF i t Ht) as [r [Hr Hc]].
  destruct (H2 t) as [p0 [p1 [Hsm [_ [_ Hsum]]]]].
  exists r, p0, p1. split; [exact Hr|].
  split; [now apply classify_row_inv in Hc|].
  split; [exact Hsm|].
  rewrite Hsm, classify_row_pair in Hc.
  destruct (Qle_bool p1 p0) eqn:Hle; inversion Hc; subst r; simpl.
  - apply Qle_bool_iff in Hle.
    split; [tauto|]. split; [split; [discriminate|contradiction]|].
    split; [now left|]. split; [reflexivity|]. repeat split; lra.
  - assert (Hnle : ~ (p1 <= p0)%Q).
    { intros Hcontra. apply Qle_bool_iff in Hcontra. congruence. }
    split; [split; [discriminate|contradiction]|]. split; [tauto|].
    split; [now right|]. split; [reflexivity|]. repeat split; lra.
Qed.

(** C8.  When the model raises [e] on a slice after the slices before it
    were processed successfully, [analyze_batch] ends with that same
    exception [e]: it returns no list, and the results [rs1] gathered
    from the earlier slices are not handed to the caller. *)
Theorem analyze_batch_propagates (self : SentimentAnalyzer W)
        (texts : list string) (pre post : list (list string))
        (c : list string) (rs1 : list result) (e : exn) (w w1 w2 : W) :
  batch_size self <> 0 ->
  batches self texts = pre ++ c :: post ->
  run self pre [] w = (inr rs1, w1) ->
  forward self c w1 = (inl e, w2) ->
  analyze self texts w = (inl e, w2).
Proof.
  intros Hbs Hsplit Hpre Hc.
  rewrite analyze_batch_run by exact Hbs.
  rewrite Hsplit, run_batches_app, Hpre. simpl.
  unfold bind. rewrite batch_step_unfold, Hc. reflexivity.
Qed.

(** A slice on which the model raises in every state leaves
    [analyze_batch] without a result list. *)
Lemma analyze_batch_no_partial_results (self : SentimentAnalyzer W)
      (texts : list string) (c : list string) (w : W) :
  In c (batches self texts) ->
  (forall u, exists e, fst (forward self c u) = inl e) ->
  exists e, fst (analyze self texts w) = inl e.
Proof.
  intros Hin Hc.
  destruct (Z.eq_dec (batch_size self) 0) as [Hz|Hnz].
  - unfold batches, py_range in Hin. rewrite Hz in Hin. contradiction.
  - rewrite analyze_batch_run by exact Hnz.
    eapply run_batches_raises; eauto.
Qed.

(** C9.  With a model whose outcome on a batch does not depend on the
    state it is called in, two calls of [analyze_batch] on the same
    texts with the same analyzer end the same way, whatever the states
    [w1] and [w2] they start in: the same result list, or the same
    exception. *)
Theorem analyze_batch_repeatable (self : SentimentAnalyzer W)
        (texts : list string) (w1 w2 : W) :
  deterministic self ->
  fst (analyze self texts w1) = fst (analyze self texts w2).
Proof.
  intros Hdet.
  destruct (Z.eq_dec (batch_size self) 0) as [Hz|Hnz].
  - unfold analyze_batch, py_range, bind, lift. now rewrite Hz.
  - rewrite !analyze_batch_run by exact Hnz.
    now apply run_batches_deterministic.
Qed.
End EngineOutcomes.

(* ===================================================================== *)
(** ** The summary *)
(* ===================================================================== *)

Lemma sum_ints_ones {A} (l : list A) :
  sum_ints (map (fun _ => 1) l) = Z.of_nat (length l).
Proof.
  unfold sum_ints.
  enough (H : forall acc, fold_left Z.add (map (fun _ : A => 1) l) acc
                          = acc + Z.of_nat (length l)) by apply H.
  induction l as [|x l IH]; intros acc; simpl length; simpl fold_left.
  - lia.
  - rewrite IH. lia.
Qed.

Lemma has_label_eq (l : string) (r : result) :
  has_label l r = true <-> label r = l.
Proof. unfold has_label. apply String.eqb_eq. Qed.

Lemma has_label_other (l l' : string) (r : result) :
  label r = l -> l <> l' -> has_label l' r = false.
Proof.
  intros Hl Hne. unfold has_label. rewrite Hl. now apply String.eqb_neq.
Qed.

(** Items with a known label fall in exactly one of the two counted
    groups. *)
Lemma known_labels_split (results : list result) :
  Forall known_label results ->
  (length (filter (has_label "POSITIVE") results)
   + length (filter (has_label "NEGATIVE") results) = length results)%nat.
Proof.
  induction 1 as [|r results Hr _ IH]; [reflexivity|].
  cbn [filter].
  destruct Hr as [Hr|Hr].
  - rewrite (proj2 (has_label_eq "POSITIVE" r) Hr).
    rewrite (has_label_other "POSITIVE" "NEGATIVE" r Hr) by discriminate.
    simpl length. lia.
  - rewrite (proj2 (has_label_eq "NEGATIVE" r) Hr).
    rewrite (has_label_other "NEGATIVE" "POSITIVE" r Hr) by discriminate.
    simpl length. lia.
Qed.

(** The summary in closed form. *)
Lemma summarize_closed_form (results : list result) :
  let pos := filter (has_label "POSITIVE") results in
  let neg := filter (has_label "NEGATIVE") results in
  summarize results
  = inr (mkSummary
           (Z.of_nat (length pos)) (Z.of_nat (length neg))
           match pos with [] => 0%Q | _ :: _ => mean (map score pos) end
           match neg with [] => 0%Q | _ :: _ => mean (map score neg) end
           (Z.of_nat (length results))).
Proof.
  intros pos neg. unfold summarize. rewrite !sum_ints_ones.
  fold pos neg.
  assert (Havg : forall l : list result,
            (if 0 <? Z.of_nat (length l)
             then truediv (sum_scores (map score l)) (Z.of_nat (length l))
             else ok 0%Q)
            = inr match l with [] => 0%Q | _ :: _ => mean (map score l) end).
  { intros [|r l]; [reflexivity|].
    destruct (Z.ltb_spec 0 (Z.of_nat (length (r :: l)))) as [_|Hle];
      [|simpl length in Hle; lia].
    unfold truediv.
    destruct (Z.eqb_spec (Z.of_nat (length (r :: l))) 0) as [Hz|_];
      [simpl length in Hz; lia|].
    unfold ok, mean. now rewrite length_map. }
  rewrite !Havg. reflexivity.
Qed.

(** C7.  For every result list the summary is produced without error; it
    reports, for POSITIVE and for NEGATIVE, the number of items carrying
    the label, and as average confidence the arithmetic mean of the scores
    of these items when there is at least one, and exactly 0 when there is
    none; [total_reviews] is the length of the list. *)
Theorem summarize_counts_means (results : list result) :
  let pos := filter (has_label "POSITIVE") results in
  let neg := filter (has_label "NEGATIVE") results in
  exists s,
    summarize results = inr s /\
    positive_count s = Z.of_nat (length pos) /\
    negative_count s = Z.of_nat (length neg) /\
    total_reviews s = Z.of_nat (length results) /\
    positive_avg_confidence s
      = match pos with [] => 0%Q | _ :: _ => mean (map score pos) end /\
    negative_avg_confidence s
      = match neg with [] => 0%Q | _ :: _ => mean (map score neg) end.
Proof.
  intros pos neg. eexists. split; [apply summarize_closed_form|].
  repeat split.
Qed.

Section SummaryOfEngine.
Context {W : Type}.
Variable softmax : list Q -> list Q.
Variable asyncio_sleep : W -> W.

(** C10.  Every item of a list returned by [analyze_batch] is labelled
    POSITIVE or NEGATIVE, so in the summary of that list the two counts
    add up to [total_reviews]. *)
Theorem summary_counts_add_up (self : SentimentAnalyzer W)
        (texts : list string) (w w' : W) (results : list result) :
  analyze_batch softmax asyncio_sleep self texts w = (inr results, w') ->
  Forall known_label results /\
  exists s,
    summarize results = inr s /\
    positive_count s + negative_count s = total_reviews s /\
    total_reviews s = Z.of_nat (length results).
Proof.
  intros Hrun. apply analyze_batch_returns in Hrun.
  assert (Hknown : Forall known_label results).
  { eapply run_batches_invariant; [| |exact Hrun]; [|constructor].
    intros t row r Hc. apply classify_row_inv in Hc.
    unfold known_label. tauto. }
  split; [exact Hknown|].
  eexists. split; [apply summarize_closed_form|].
  simpl. split; [|reflexivity].
  now rewrite <- Nat2Z.inj_add, known_labels_split.
Qed.
End SummaryOfEngine.

(* ===================================================================== *)
(** ** The validator *)
(* ===================================================================== *)

Lemma has_column_In (name : string) (df : DataFrame) :
  has_column name df = true <-> In name (columns df).
Proof.
  unfold has_column. rewrite existsb_exists. split.
  - intros [x [Hin Hx]]. apply String.eqb_eq in Hx. now subst.
  - intros Hin. exists name. split; [exact Hin|apply String.eqb_refl].
Qed.

(** C5.  [validate_csv] answers the missing-column message when no column
    is called [review]; the empty-dataset message when there is such a
    column and no row; nothing when there is such a column and at least
    one row.  Its answer depends on the column labels and the number of
    rows only. *)
Theorem validate_csv_cases (df : DataFrame) :
  (~ In "review" (columns df) -> validate_csv df = Some MissingColumn) /\
  (In "review" (columns df) -> nrows df = 0%nat ->
   validate_csv df = Some EmptyDataset) /\
  (In "review" (columns df) -> (1 <= nrows df)%nat -> validate_csv df = None) /\
  (forall df', columns df' = columns df -> nrows df' = nrows df ->
               validate_csv df' = validate_csv df).
Proof.
  unfold validate_csv, df_empty.
  repeat split.
  - intros Hno. destruct (has_column "review" df) eqn:Hc; [|reflexivity].
    apply has_column_In in Hc. contradiction.
  - intros Hin Hrows. rewrite (proj2 (has_column_In _ _) Hin), Hrows. simpl.
    now rewrite orb_true_r.
  - intros Hin Hrows. rewrite (proj2 (has_column_In _ _) Hin). simpl.
    destruct (columns df) as [|c cs]; [contradiction|].
    destruct (nrows df); [lia|reflexivity].
  - intros df' Hcols Hrows. unfold has_column. now rewrite Hcols, Hrows.
Qed.

Lemma validate_csv_message (df : DataFrame) (msg : string) :
  validate_csv df = Some msg -> msg = MissingColumn \/ msg = EmptyDataset.
Proof.
  unfold validate_csv.
  destruct (negb (has_column "review" df)); [intros H; inversion H; auto|].
  destruct (df_empty df); [intros H; inversion H; auto|discriminate].
Qed.

(* ===================================================================== *)
(** ** The endpoint *)
(* ===================================================================== *)

Section Endpoint.
Context {W : Type}.
Variable softmax : list Q -> list Q.
Variable asyncio_sleep : W -> W.
Variable read_csv : string -> result_of DataFrame.
Variable str_of_exn : exn -> string.
Variable sentiment_analyzer : SentimentAnalyzer W.

Local Abbreviation post :=
  (analyze_reviews softmax asyncio_sleep read_csv str_of_exn sentiment_analyzer).

(** A name without the [.csv] suffix is refused with status 400: this
    [raise] stands outside the [try] block. *)
Lemma wrong_extension_answers_400 (filename content : string) (w : W) :
  endswith filename ".csv" = false ->
  post filename content w
  = (inl (HTTPException 400 "Only CSV files are accepted"), w).
Proof.
  intros Hext. unfold analyze_reviews. now rewrite Hext.
Qed.

(** The [HTTPException] with status 400 raised for a validation error is
    raised inside the [try] block, where [except Exception] catches it
    and raises an [HTTPException] with status 500 in its place. *)
Lemma validation_error_answers_500 (filename content : string)
      (df : DataFrame) (msg : string) (w : W) :
  endswith filename ".csv" = true ->
  read_csv content = inr df ->
  validate_csv df = Some msg ->
  post filename content w
  = (inl (HTTPException 500
            ("Error processing CSV: " ++ str_of_exn (HTTPException 400 msg))),
     w).
Proof.
  intros Hext Hread Hval.
  unfold analyze_reviews. rewrite Hext. simpl negb. cbv iota.
  unfold try_except, process_csv, bind, lift. rewrite Hread, Hval.
  destruct (validate_csv_message df msg Hval) as [->| ->]; reflexivity.
Qed.
End Endpoint.

(** C2.  Uploads named [data.csv] that parse and fail the validator are
    not answered with status 400 and the validator's message: the frame
    without a [review] column and the frame with a [review] column and no
    row are both answered with status 500, the detail being the text
    "Error processing CSV: " followed by the rendering of the caught
    exception, whatever the analyzer and the rendering of exceptions. *)
Theorem validation_failures_answer_500
        (W : Type) (softmax : list Q -> list Q) (asyncio_sleep : W -> W)
        (str_of_exn : exn -> string) (sentiment_analyzer : SentimentAnalyzer W)
        (w : W) :
  let post content :=
    fst (analyze_reviews softmax asyncio_sleep Demo.read_csv str_of_exn
                         sentiment_analyzer "data.csv" content w) in
  (Demo.read_csv Demo.csv_without_review
   = inr (mkDataFrame ["text"] [[Some "hello"]]) /\
   validate_csv (mkDataFrame ["text"] [[Some "hello"]]) = Some MissingColumn /\
   post Demo.csv_without_review
   = inl (HTTPException 500
            ("Error processing CSV: "
             ++ str_of_exn (HTTPException 400 MissingColumn))) /\
   http_status (post Demo.csv_without_review) = 500) /\
  (Demo.read_csv Demo.csv_header_only = inr (mkDataFrame ["review"] []) /\
   validate_csv (mkDataFrame ["review"] []) = Some EmptyDataset /\
   post Demo.csv_header_only
   = inl (HTTPException 500
            ("Error processing CSV: "
             ++ str_of_exn (HTTPException 400 EmptyDataset))) /\
   http_status (post Demo.csv_header_only) = 500).
Proof.
  intros post.
  assert (Hmissing : post Demo.csv_without_review
                     = inl (HTTPException 500
                              ("Error processing CSV: "
                               ++ str_of_exn (HTTPException 400 MissingColumn)))).
  { subst post. cbv beta.
    now rewrite (validation_error_answers_500 softmax asyncio_sleep Demo.read_csv
                   str_of_exn sentiment_analyzer "data.csv" Demo.csv_without_review
                   (mkDataFrame ["text"] [[Some "hello"]]) MissingColumn w
                   eq_refl eq_refl eq_refl). }
  assert (Hempty : post Demo.csv_header_only
                   = inl (HTTPException 500
                            ("Error processing CSV: "
                             ++ str_of_exn (HTTPException 400 EmptyDataset)))).
  { subst post. cbv beta.
    now rewrite (validation_error_answers_500 softmax asyncio_sleep Demo.read_csv
                   str_of_exn sentiment_analyzer "data.csv" Demo.csv_header_only
                   (mkDataFrame ["review"] []) EmptyDataset w
                   eq_refl eq_refl eq_refl). }
  split.
  - split; [reflexivity|]. split; [reflexivity|]. split; [exact Hmissing|].
    now rewrite Hmissing.
  - split; [reflexivity|]. split; [reflexivity|]. split; [exact Hempty|].
    now rewrite Hempty.
Qed.

(* ===================================================================== *)
(** ** The properties at work on the concrete analyzer *)
(* ===================================================================== *)

Lemma demo_itemwise (batch_size : Z) :
  itemwise (Demo.analyzer batch_size) Demo.logits_of.
Proof. intros c w. reflexivity. Qed.

Lemma demo_deterministic (batch_size : Z) :
  deterministic (Demo.analyzer batch_size).
Proof. intros c w1 w2. reflexivity. Qed.

Lemma demo_weight_length (t : string) :
  Demo.weight (inject_Z (Z.of_nat (String.length t)))
  = (1 + inject_Z (Z.of_nat (String.length t)))%Q.
Proof.
  unfold Demo.weight.
  destruct (Qle_bool 0 (inject_Z (Z.of_nat (String.length t)))) eqn:H;
    [reflexivity|].
  assert (Hle : (0 <= inject_Z (Z.of_nat (String.length t)))%Q).
  { change 0%Q with (inject_Z 0). rewrite <- Zle_Qle. lia. }
  apply Qle_bool_iff in Hle. congruence.
Qed.

Lemma demo_two_class : two_class Demo.softmax Demo.logits_of.
Proof.
  intros t. unfold Demo.softmax, Demo.logits_of. simpl map.
  rewrite demo_weight_length.
  change (Demo.weight 3) with (1 + 3)%Q.
  unfold sum_scores. simpl fold_left.
  set (n := inject_Z (Z.of_nat (String.length t))).
  assert (Hn : (0 <= n)%Q).
  { subst n. change 0%Q with (inject_Z 0). rewrite <- Zle_Qle. lia. }
  eexists. eexists. split; [reflexivity|].
  assert (Htot : (0 < 0 + (1 + n) + (1 + 3))%Q) by lra.
  split; [|split].
  - apply Qle_shift_div_l; [exact Htot|lra].
  - apply Qle_shift_div_l; [exact Htot|lra].
  - field. lra.
Qed.

(** The item-wise hypothesis of the invariance under the batch size cannot
    be dropped: a model whose rows depend on the rest of the batch labels
    the same texts differently under batch sizes 1 and 5. *)
Lemma batch_sensitive_model_breaks_invariance :
  map label (match fst (analyze_batch Demo.softmax Demo.asyncio_sleep
                          (Demo.padded_analyzer 1) Demo.five_texts 0%nat) with
             | inr results => results
             | inl _ => []
             end)
  = ["NEGATIVE"; "NEGATIVE"; "NEGATIVE"; "NEGATIVE"; "NEGATIVE"] /\
  map label (match fst (analyze_batch Demo.softmax Demo.asyncio_sleep
                          (Demo.padded_analyzer 5) Demo.five_texts 0%nat) with
             | inr results => results
             | inl _ => []
             end)
  = ["POSITIVE"; "POSITIVE"; "POSITIVE"; "NEGATIVE"; "POSITIVE"].
Proof. split; reflexivity. Qed.

Lemma analyze_batch_length_order_witness :
  exists results,
    fst (analyze_batch Demo.softmax Demo.asyncio_sleep (Demo.analyzer 2)
                       Demo.five_texts 0%nat) = inr results /\
    length results = length Demo.five_texts /\
    forall i t, nth_error Demo.five_texts i = Some t ->
      exists r, nth_error results i = Some r /\ text r = t /\
                classify_row t (Demo.softmax (Demo.logits_of t)) = inr r.
Proof.
  apply (analyze_batch_length_order Demo.softmax Demo.asyncio_sleep
           (Demo.analyzer 2) Demo.logits_of Demo.five_texts 0%nat).
  - simpl. lia.
  - apply demo_itemwise.
  - intros t. discriminate.
Defined.

Lemma batches_partition_witness :
  batches (Demo.analyzer 2) Demo.five_texts
  = [["a"; "bbbb"]; ["cc"; "ddddd"]; ["eee"]] /\
  concat (batches (Demo.analyzer 2) Demo.five_texts) = Demo.five_texts /\
  (forall k c, nth_error (batches (Demo.analyzer 2) Demo.five_texts) k = Some c ->
     c = firstn 2 (skipn (k * 2) Demo.five_texts) /\
     (1 <= length c <= 2)%nat /\
     (S k < length (batches (Demo.analyzer 2) Demo.five_texts) ->
      length c = 2)%nat) /\
  (forall w,
     analyze_batch Demo.softmax Demo.asyncio_sleep (Demo.analyzer 2)
                   Demo.five_texts w
     = run_batches Demo.softmax Demo.asyncio_sleep (Demo.analyzer 2)
                   (batches (Demo.analyzer 2) Demo.five_texts) [] w).
Proof.
  split; [reflexivity|].
  apply (batches_partition Demo.softmax Demo.asyncio_sleep
           (Demo.analyzer 2) Demo.five_texts).
  simpl. lia.
Defined.

(** The three outcomes of [POST /analyze] on the concrete analyzer: a name
    without the suffix, a rejected frame, an accepted frame. *)
Example post_analyze_txt :
  fst (Demo.post_analyze "data.txt" Demo.csv_two_reviews 0%nat)
  = inl (HTTPException 400 "Only CSV files are accepted").
Proof. reflexivity. Qed.

Example post_analyze_without_review :
  fst (Demo.post_analyze "data.csv" Demo.csv_without_review 0%nat)
  = inl (HTTPException 500
           "Error processing CSV: 400: CSV file must contain a 'review' column").
Proof. reflexivity. Qed.

Example post_analyze_two_reviews :
  exists response,
    Demo.post_analyze "data.csv" Demo.csv_two_reviews 0%nat
    = (inr response, 2%nat) /\
    total_reviews (summary response) = 2 /\
    positive_count (summary response) = 1 /\
    negative_count (summary response) = 1 /\
    map sentiment (reviews response) = ["NEGATIVE"; "POSITIVE"].
Proof. eexists. split; [reflexivity|]. repeat split. Qed.

Lemma analyze_batch_batch_size_invariant_witness :
  exists results,
    fst (analyze_batch Demo.softmax Demo.asyncio_sleep (Demo.analyzer 1)
                       Demo.five_texts 0%nat) = inr results /\
    fst (analyze_batch Demo.softmax Demo.asyncio_sleep (Demo.analyzer 7)
                       Demo.five_texts 0%nat) = inr results.
Proof.
  apply (analyze_batch_batch_size_invariant Demo.softmax Demo.asyncio_sleep
           (Demo.analyzer 1) (Demo.analyzer 7) Demo.logits_of).
  - simpl. lia.
  - simpl. lia.
  - apply demo_itemwise.
  - apply demo_itemwise.
  - intros t. discriminate.
Defined.

Lemma analyze_batch_argmax_witness :
  exists results,
    fst (analyze_batch Demo.softmax Demo.asyncio_sleep (Demo.analyzer 2)
                       Demo.five_texts 0%nat) = inr results /\
    length results = length Demo.five_texts /\
    forall i t,
      nth_error Demo.five_texts i = Some t ->
      exists r p0 p1,
        nth_error results i = Some r /\
        text r = t /\
        Demo.softmax (Demo.logits_of t) = [p0; p1] /\
        (label r = "NEGATIVE" <-> (p1 <= p0)%Q) /\
        (label r = "POSITIVE" <-> ~ (p1 <= p0)%Q) /\
        (label r = "NEGATIVE" \/ label r = "POSITIVE") /\
        score r = (if Qle_bool p1 p0 then p0 else p1) /\
        (p0 <= score r)%Q /\ (p1 <= score r)%Q /\
        (1 # 2 <= score r)%Q.
Proof.
  apply (analyze_batch_argmax Demo.softmax Demo.asyncio_sleep
           (Demo.analyzer 2) Demo.logits_of Demo.five_texts 0%nat).
  - simpl. lia.
  - apply demo_itemwise.
  - apply demo_two_class.
Defined.

Lemma analyze_batch_propagates_witness :
  batches (Demo.fragile_analyzer 2) ["a"; "b"; "boom"; "c"]
  = [["a"; "b"]] ++ ["boom"; "c"] :: [] /\
  analyze_batch Demo.softmax Demo.asyncio_sleep (Demo.fragile_analyzer 2)
                ["a"; "b"; "boom"; "c"] 0%nat
  = (inl Demo.out_of_memory, 2%nat).
Proof.
  split; [reflexivity|].
  eapply (analyze_batch_propagates Demo.softmax Demo.asyncio_sleep
            (Demo.fragile_analyzer 2) ["a"; "b"; "boom"; "c"]
            [["a"; "b"]] [] ["boom"; "c"]).
  - simpl. discriminate.
  - reflexivity.
  - reflexivity.
  - reflexivity.
Defined.

Lemma analyze_batch_repeatable_witness :
  fst (analyze_batch Demo.softmax Demo.asyncio_sleep (Demo.analyzer 2)
                     Demo.five_texts 0%nat)
  = fst (analyze_batch Demo.softmax Demo.asyncio_sleep (Demo.analyzer 2)
                       Demo.five_texts 6%nat).
Proof.
  apply (analyze_batch_repeatable Demo.softmax Demo.asyncio_sleep
           (Demo.analyzer 2) Demo.five_texts 0%nat 6%nat).
  apply demo_deterministic.
Defined.

Lemma summary_counts_add_up_witness :
  exists results,
    fst (analyze_batch Demo.softmax Demo.asyncio_sleep (Demo.analyzer 2)
                       Demo.five_texts 0%nat) = inr results /\
    Forall known_label results /\
    exists s,
      summarize results = inr s /\
      positive_count s + negative_count s = total_reviews s /\
      total_reviews s = Z.of_nat (length results).
Proof.
  eexists. split; [reflexivity|].
  eapply (summary_counts_add_up Demo.softmax Demo.asyncio_sleep
            (Demo.analyzer 2) Demo.five_texts 0%nat).
  reflexivity.
Defined.

Lemma validate_csv_cases_witness :
  validate_csv (mkDataFrame ["text"] [[Some "hello"]]) = Some MissingColumn /\
  validate_csv (mkDataFrame ["review"] []) = Some EmptyDataset /\
  validate_csv (mkDataFrame ["id"; "review"] [[Some "1"; Some "fine"]]) = None.
Proof.
  split; [|split].
  - apply (proj1 (validate_csv_cases (mkDataFrame ["text"] [[Some "hello"]]))).
    simpl. intros H. destruct H as [H|[]]. discriminate.
  - apply (proj1 (proj2 (validate_csv_cases (mkDataFrame ["review"] [])))).
    + simpl. now left.
    + reflexivity.
  - apply (proj1 (proj2 (proj2 (validate_csv_cases
             (mkDataFrame ["id"; "review"] [[Some "1"; Some "fine"]]))))).
    + simpl. now right; left.
    + unfold nrows. simpl. lia.
Defined.

Lemma summarize_counts_means_witness :
  exists s,
    summarize [mkResult "great" "POSITIVE" (3 # 4);
               mkResult "fine" "POSITIVE" (1 # 2)] = inr s /\
    positive_count s = 2 /\
    negative_count s = 0 /\
    total_reviews s = 2 /\
    positive_avg_confidence s = mean [3 # 4; 1 # 2] /\
    negative_avg_confidence s = 0%Q.
Proof.
  exact (summarize_counts_means
           [mkResult "great" "POSITIVE" (3 # 4);
            mkResult "fine" "POSITIVE" (1 # 2)]).
Defined.

(* ===================================================================== *)
(** ** More on models.py: argmax, the single-text path, edge cases *)
(* ===================================================================== *)

(** [argmax_from] returns the position of the first maximal entry of the
    whole row [pre ++ row], given the best entry of the part [pre] already
    scanned. *)
Lemma argmax_from_spec (row : list Q) :
  forall (pre : list Q) (best_i : nat) (best : Q),
    nth_error pre best_i = Some best ->
    (forall y, In y pre -> (y <= best)%Q) ->
    (forall j y, (j < best_i)%nat -> nth_error pre j = Some y -> (y < best)%Q) ->
    exists v,
      nth_error (pre ++ row) (argmax_from best_i best (length pre) row) = Some v /\
      (forall y, In y (pre ++ row) -> (y <= v)%Q) /\
      (forall j y, (j < argmax_from best_i best (length pre) row)%nat ->
                   nth_error (pre ++ row) j = Some y -> (y < v)%Q).
Proof.
  induction row as [|x row IH]; intros pre best_i best Hbest Hmax Hfirst.
  - simpl. rewrite app_nil_r. exists best. auto.
  - assert (Hlt : (best_i < length pre)%nat).
    { apply nth_error_Some. congruence. }
    simpl argmax_from.
    replace (pre ++ x :: row) with ((pre ++ [x]) ++ row)
      by (now rewrite <- app_assoc).
    replace (S (length pre)) with (length (pre ++ [x]))
      by (rewrite length_app; simpl; lia).
    destruct (Qle_bool x best) eqn:Hle.
    + apply Qle_bool_iff in Hle. apply IH.
      * rewrite nth_error_app1 by exact Hlt. exact Hbest.
      * intros y Hy. apply in_app_or in Hy. destruct Hy as [Hy|[<-|[]]]; auto.
      * intros j y Hj Hy. rewrite nth_error_app1 in Hy by lia. eauto.
    + assert (Hgt : (best < x)%Q).
      { apply Qnot_le_lt. intros Hc. apply Qle_bool_iff in Hc. congruence. }
      apply IH.
      * rewrite nth_error_app2 by lia. now rewrite Nat.sub_diag.
      * intros y Hy. apply in_app_or in Hy. destruct Hy as [Hy|[<-|[]]].
        -- specialize (Hmax y Hy). lra.
        -- lra.
      * intros j y Hj Hy. rewrite nth_error_app1 in Hy by lia.
        apply nth_error_In in Hy. specialize (Hmax y Hy). lra.
Qed.

Lemma argmax_spec (row : list Q) (k : nat) :
  argmax row = inr k ->
  exists v,
    nth_error row k = Some v /\
    (forall y, In y row -> (y <= v)%Q) /\
    (forall j y, (j < k)%nat -> nth_error row j = Some y -> (y < v)%Q).
Proof.
  destruct row as [|x row]; [discriminate|]. simpl. intros H.
  inversion H; subst k. clear H.
  apply (argmax_from_spec row [x] 0%nat x).
  - reflexivity.
  - intros y [<-|[]]. lra.
  - intros j y Hj. lia.
Qed.

Lemma classify_row_first_maximum (t : string) (row : list Q) (r : result) :
  classify_row t row = inr r ->
  In (score r) row /\
  (forall y, In y row -> (y <= score r)%Q) /\
  (label r = "NEGATIVE" <->
   exists x rest, row = x :: rest /\ forall y, In y rest -> (y <= x)%Q).
Proof.
  intros H. pose proof (classify_row_inv t row r H) as [_ [_ Hin]].
  unfold classify_row in H.
  apply rbind_ok in H. destruct H as [k [Hk H]].
  apply rbind_ok in H. destruct H as [v [Hv H]].
  inversion H; subst r; simpl in *. clear H.
  destruct (argmax_spec row k Hk) as [v' [Hnth [Hmax Hfirst]]].
  unfold getitem in Hv. rewrite Hnth in Hv. inversion Hv; subst v'. clear Hv.
  split; [exact Hin|]. split; [exact Hmax|].
  destruct row as [|x rest]; [discriminate|].
  split.
  - intros Hlabel. destruct k as [|k]; [|discriminate].
    simpl in Hnth. inversion Hnth; subst v.
    exists x, rest. split; [reflexivity|]. intros y Hy. apply Hmax. now right.
  - intros [x' [rest' [Hrow Hall]]]. inversion Hrow; subst x' rest'.
    destruct k as [|k]; [reflexivity|]. exfalso.
    assert (Hx : (x < v)%Q) by (apply (Hfirst 0%nat x); [lia|reflexivity]).
    simpl in Hnth. apply nth_error_In in Hnth. specialize (Hall v Hnth). lra.
Qed.

(** A classified row is labelled POSITIVE exactly when some later entry
    exceeds the first one, and is never given a third label. *)
Lemma classify_row_positive (t : string) (row : list Q) (r : result) :
  classify_row t row = inr r ->
  (label r = "NEGATIVE" \/ label r = "POSITIVE") /\
  (label r = "POSITIVE" <->
   exists x rest y, row = x :: rest /\ In y rest /\ (x < y)%Q).
Proof.
  intros H. pose proof (classify_row_first_maximum t row r H)
    as [_ [Hmax Hneg]].
  pose proof (classify_row_inv t row r H) as [_ [Hlabel _]].
  split; [exact Hlabel|].
  unfold classify_row in H.
  apply rbind_ok in H. destruct H as [k [Hk H]].
  apply rbind_ok in H. destruct H as [v [Hv H]].
  inversion H; subst r; simpl in *. clear H.
  destruct (argmax_spec row k Hk) as [v' [Hnth [_ Hfirst]]].
  unfold getitem in Hv. rewrite Hnth in Hv. inversion Hv; subst v'. clear Hv.
  destruct row as [|x rest]; [discriminate|].
  split.
  - intros Hpos. destruct k as [|k]; [discriminate|].
    exists x, rest, v. split; [reflexivity|]. split.
    + simpl in Hnth. eapply nth_error_In; eauto.
    + apply (Hfirst 0%nat x); [lia|reflexivity].
  - intros [x' [rest' [y [Hrow [Hy Hlt]]]]]. inversion Hrow; subst x' rest'.
    destruct k as [|k]; [|reflexivity]. exfalso.
    simpl in Hnth. inversion Hnth; subst v.
    assert (Hle : (y <= x)%Q) by (apply Hmax; now right). lra.
Qed.

(** X1.  Whatever the number of classes, a row that is classified yields
    as score an entry of the row that no entry exceeds; the label is
    NEGATIVE exactly when no entry exceeds the first one, POSITIVE exactly
    when some entry does (whichever class wins then), and never anything
    else. *)
Theorem classify_row_maximum (t : string) (row : list Q) (r : result) :
  classify_row t row = inr r ->
  In (score r) row /\
  (forall y, In y row -> (y <= score r)%Q) /\
  (label r = "NEGATIVE" \/ label r = "POSITIVE") /\
  (label r = "NEGATIVE" <->
   exists x rest, row = x :: rest /\ forall y, In y rest -> (y <= x)%Q) /\
  (label r = "POSITIVE" <->
   exists x rest y, row = x :: rest /\ In y rest /\ (x < y)%Q).
Proof.
  intros H.
  destruct (classify_row_first_maximum t row r H) as [Hin [Hmax Hneg]].
  destruct (classify_row_positive t row r H) as [Hlabel Hpos].
  auto.
Qed.

Lemma classify_row_maximum_witness :
  classify_row "so-so" [1 # 4; 1 # 2; 1 # 4]
  = inr (mkResult "so-so" "POSITIVE" (1 # 2)) /\
  (forall y, In y [1 # 4; 1 # 2; 1 # 4] -> (y <= 1 # 2)%Q) /\
  (exists x rest y,
     [1 # 4; 1 # 2; 1 # 4] = x :: rest /\ In y rest /\ (x < y)%Q).
Proof.
  split; [reflexivity|].
  pose proof (classify_row_maximum "so-so" [1 # 4; 1 # 2; 1 # 4]
                (mkResult "so-so" "POSITIVE" (1 # 2)) eq_refl)
    as [_ [Hmax [_ [_ Hpos]]]].
  split; [exact Hmax|]. apply Hpos. reflexivity.
Defined.

Lemma classify_rows_at_texts (ts : list string) :
  forall (j n : nat) (rows : tensor) (new : list result),
    classify_rows_at j n ts rows = inr new -> map text new = ts.
Proof.
  induction ts as [|t ts IH]; intros j n rows new H; simpl in H.
  - now inversion H.
  - destruct rows as [|row rows]; [discriminate|].
    apply rbind_ok in H. destruct H as [r [Hr H]].
    apply rbind_ok in H. destruct H as [rest [Hrest H]].
    inversion H; subst new. simpl.
    apply classify_row_inv in Hr. destruct Hr as [-> _].
    now rewrite (IH _ _ _ _ Hrest).
Qed.

Lemma classify_rows_texts (ts : list string) :
  forall (rows : tensor) (new : list result),
    classify_rows ts rows = inr new -> map text new = ts.
Proof.
  intros rows new H. exact (classify_rows_at_texts ts _ _ rows new H).
Qed.

Section EdgeCases.
Context {W : Type}.
Variable softmax : list Q -> list Q.
Variable asyncio_sleep : W -> W.

Local Abbreviation analyze := (analyze_batch softmax asyncio_sleep).
Local Abbreviation run := (run_batches softmax asyncio_sleep).

(** A run that returns has appended one result per text of the slices, in
    order, whatever the model did. *)
Lemma run_batches_texts (self : SentimentAnalyzer W) :
  forall chunks rs w out w',
    run self chunks rs w = (inr out, w') ->
    exists new, out = rs ++ new /\ map text new = concat chunks.
Proof.
  induction chunks as [|c chunks IH]; intros rs w out w' H.
  - simpl in H. unfold ret in H. inversion H; subst.
    exists []. now rewrite app_nil_r.
  - simpl in H. unfold bind in H. rewrite batch_step_unfold in H.
    destruct (forward self c w) as [[e|logits] w1]; [discriminate|].
    destruct (classify_rows c (map softmax logits)) as [e|new1] eqn:Hnew1;
      [discriminate|].
    destruct (IH _ _ _ _ H) as [new2 [-> Htexts]].
    exists (new1 ++ new2). rewrite app_assoc. split; [reflexivity|].
    rewrite map_app, Htexts. simpl.
    now rewrite (classify_rows_texts _ _ _ Hnew1).
Qed.

(** X2.  For a batch size of at least 1 and any model at all: when
    [analyze_batch] returns a list, the texts recorded in it are the input
    texts, in input order; in particular the list is as long as the input.
    A model that returns too few rows can make the call raise, but never
    makes it return a shorter or reordered list. *)
Theorem analyze_batch_returns_aligned (self : SentimentAnalyzer W)
        (texts : list string) (w w' : W) (results : list result) :
  1 <= batch_size self ->
  analyze self texts w = (inr results, w') ->
  map text results = texts /\ length results = length texts.
Proof.
  intros Hbs H. rewrite analyze_batch_run in H by lia.
  apply run_batches_texts in H. destruct H as [new [-> Htexts]].
  rewrite concat_batches in Htexts by exact Hbs. simpl.
  split; [exact Htexts|].
  apply (f_equal (@length string)) in Htexts.
  now rewrite length_map in Htexts.
Qed.

(** X3.  A batch size of 0 or less is accepted by the constructor and never
    reaches the model: with 0 the call raises the [ValueError] of [range],
    even on an empty list; with a negative size it returns the empty list
    whatever the input, so that every text is dropped without an error.
    In both cases the outside world is left untouched. *)
Theorem analyze_batch_nonpositive_batch_size (self : SentimentAnalyzer W)
        (texts : list string) (w : W) :
  batch_size self <= 0 ->
  analyze self texts w
  = (if batch_size self =? 0
     then inl (ValueError "range() arg 3 must not be zero")
     else inr [],
     w).
Proof.
  intros Hbs. unfold analyze_batch, py_range, bind, lift.
  destruct (Z.eqb_spec (batch_size self) 0) as [Hz|Hnz]; [reflexivity|].
  unfold range_length.
  destruct (Z.ltb_spec 0 (batch_size self)) as [|_]; [lia|].
  destruct (Z.ltb_spec (Z.of_nat (length texts)) 0) as [|_]; [lia|].
  reflexivity.
Qed.

(** X4.  On the empty list [analyze_batch] returns the empty list without
    calling the model and without yielding, for every batch size other
    than 0. *)
Theorem analyze_batch_empty_input (self : SentimentAnalyzer W) (w : W) :
  batch_size self <> 0 ->
  analyze self [] w = (inr [], w).
Proof.
  intros Hbs. unfold analyze_batch, py_range, bind, lift.
  destruct (Z.eqb_spec (batch_size self) 0) as [|_]; [contradiction|].
  unfold range_length. simpl length. simpl Z.of_nat.
  destruct (0 <? batch_size self); reflexivity.
Qed.

Lemma length_batches_ceil (self : SentimentAnalyzer W) (texts : list string) :
  1 <= batch_size self ->
  Z.of_nat (length (batches self texts))
  = (Z.of_nat (length texts) + batch_size self - 1) / batch_size self.
Proof.
  intros Hbs. rewrite length_batches by exact Hbs.
  unfold batch_count, range_length.
  destruct (Z.ltb_spec 0 (batch_size self)) as [_|]; [|lia].
  destruct (Z.ltb_spec 0 (Z.of_nat (length texts))) as [Hpos|Hz].
  - rewrite Z.sub_0_r.
    assert (0 <= (Z.of_nat (length texts) - 1) / batch_size self)
      by (apply Z.div_pos; lia).
    rewrite Z2Nat.id by lia.
    replace (Z.of_nat (length texts) + batch_size self - 1)
      with ((Z.of_nat (length texts) - 1) + 1 * batch_size self) by lia.
    rewrite Z.div_add by lia. reflexivity.
  - replace (Z.of_nat (length texts)) with 0 by lia. simpl Z.to_nat.
    simpl Z.of_nat. rewrite Z.add_0_l. symmetry. apply Z.div_small. lia.
Qed.

(** X5.  For a batch size [b >= 1] the model is called on
    [ceil (len(texts) / b)] slices: the quotient of [len(texts) + b - 1]
    by [b]. *)
Theorem batches_count (self : SentimentAnalyzer W) (texts : list string) :
  1 <= batch_size self ->
  Z.of_nat (length (batches self texts))
  = (Z.of_nat (length texts) + batch_size self - 1) / batch_size self.
Proof.
  intros Hbs. now apply length_batches_ceil.
Qed.

Lemma batches_whole_input (self : SentimentAnalyzer W) (texts : list string) :
  texts <> [] ->
  Z.of_nat (length texts) <= batch_size self ->
  batches self texts = [texts].
Proof.
  intros Hne Hbs.
  assert (Hlen : (0 < length texts)%nat) by (destruct texts; simpl; [congruence|lia]).
  assert (Hpos : 1 <= batch_size self) by lia.
  pose proof (length_batches_ceil self texts Hpos) as Hcount.
  replace (Z.of_nat (length texts) + batch_size self - 1)
    with ((Z.of_nat (length texts) - 1) + 1 * batch_size self) in Hcount by lia.
  rewrite Z.div_add, Z.div_small in Hcount by lia.
  pose proof (concat_batches self texts Hpos) as Hcat.
  destruct (batches self texts) as [|c [|c' rest]]; simpl in Hcount; try lia.
  simpl in Hcat. rewrite app_nil_r in Hcat. now subst c.
Qed.

(** X6.  When the batch size is at least the number of texts and there is
    at least one text, the model is called once, on the whole input. *)
Theorem batches_single (self : SentimentAnalyzer W) (texts : list string) :
  texts <> [] ->
  Z.of_nat (length texts) <= batch_size self ->
  batches self texts = [texts].
Proof.
  intros Hne Hbs. now apply batches_whole_input.
Qed.
End EdgeCases.

Section SingleTextFacts.
Context {W : Type}.
Variable softmax : list Q -> list Q.
Variable asyncio_sleep : W -> W.

Local Abbreviation analyze := (analyze_batch softmax asyncio_sleep).

Lemma batches_singleton (self : SentimentAnalyzer W) (t : string) :
  1 <= batch_size self -> batches self [t] = [[t]].
Proof.
  intros Hbs. apply (batches_whole_input self [t]); [discriminate|simpl; lia].
Qed.

(** X7.  On one text the single-text method and the batch method agree:
    when the model returns exactly one row for the batch holding that text
    (or raises), [analyze_batch] on the one-element list ends with the
    one-element list of what [analyze_text] ends with, or with the same
    exception. *)
Theorem analyze_text_agrees_with_batch (self : SentimentAnalyzer W)
        (t : string) (w : W) :
  1 <= batch_size self ->
  (forall logits, fst (forward self [t] w) = inr logits -> length logits = 1%nat) ->
  fst (analyze self [t] w)
  = rbind (fst (analyze_text softmax self t w)) (fun r => ok [r]).
Proof.
  intros Hbs Hone.
  rewrite analyze_batch_run by lia. rewrite batches_singleton by exact Hbs.
  simpl run_batches. unfold analyze_text. unfold bind, lift, ret.
  rewrite batch_step_unfold.
  destruct (forward self [t] w) as [[e|logits] w1]; [reflexivity|].
  specialize (Hone logits eq_refl).
  destruct logits as [|lg [|lg' rest]]; try discriminate. clear Hone.
  simpl map. simpl concat. rewrite app_nil_r.
  unfold classify_rows. cbn [classify_rows_at]. unfold classify_row, getitem.
  cbn [nth_error].
  unfold ok. cbn [rbind fst].
  destruct (argmax (softmax lg)) as [e|k]; [reflexivity|]. cbn [rbind].
  destruct (nth_error (softmax lg) k) as [v|]; reflexivity.
Qed.

End SingleTextFacts.

Section SingleTextResult.
Context {W : Type}.
Variable softmax : list Q -> list Q.

(** X8.  [analyze_text] echoes its text; its label is NEGATIVE or POSITIVE;
    when the model returns one row, its score is an entry of that row's
    softmax that no entry exceeds. *)
Theorem analyze_text_result (self : SentimentAnalyzer W) (t : string)
        (w w1 w2 : W) (lg : list Q) (r : result) :
  forward self [t] w = (inr [lg], w1) ->
  analyze_text softmax self t w = (inr r, w2) ->
  w2 = w1 /\
  text r = t /\ known_label r /\
  In (score r) (softmax lg) /\
  forall y, In y (softmax lg) -> (y <= score r)%Q.
Proof.
  intros Hf H. unfold analyze_text, bind, lift in H. rewrite Hf in H.
  simpl map in H. simpl concat in H. rewrite app_nil_r in H.
  inversion H as [[Hr Hw]]. clear H. split; [reflexivity|].
  assert (Hc : classify_row t (softmax lg) = inr r).
  { unfold classify_row.
    destruct (argmax (softmax lg)) as [e|k]; [discriminate|]. simpl in *.
    unfold getitem in Hr at 1. simpl in Hr. exact Hr. }
  destruct (classify_row_inv _ _ _ Hc) as [Ht [Hl _]].
  destruct (classify_row_first_maximum _ _ _ Hc) as [Hin [Hmax _]].
  unfold known_label. tauto.
Qed.
End SingleTextResult.

Section Yields.
Context {W : Type}.
Variable softmax : list Q -> list Q.
Variable asyncio_sleep : W -> W.

Lemma run_batches_yields (self : SentimentAnalyzer W) :
  (forall c u, snd (forward self c u) = u) ->
  forall chunks rs w out w',
    run_batches softmax asyncio_sleep self chunks rs w = (inr out, w') ->
    w' = Nat.iter (length chunks) asyncio_sleep w.
Proof.
  intros Hquiet. induction chunks as [|c chunks IH]; intros rs w out w' H.
  - simpl in H. unfold ret in H. now inversion H.
  - simpl in H. unfold bind in H. rewrite batch_step_unfold in H.
    pose proof (Hquiet c w) as Hc.
    destruct (forward self c w) as [[e|logits] w1]; [discriminate|].
    simpl in Hc. subst w1.
    destruct (classify_rows c (map softmax logits)) as [e|new]; [discriminate|].
    apply IH in H. simpl length. now rewrite Nat.iter_succ_r.
Qed.

(** X9.  With a model that leaves the outside world as it finds it, a call
    of [analyze_batch] that returns has yielded to the event loop once per
    slice, also after the last one: the world it leaves is the one it
    found after that many yields. *)
Theorem analyze_batch_yields_once_per_batch (self : SentimentAnalyzer W)
        (texts : list string) (w w' : W) (results : list result) :
  (forall c u, snd (forward self c u) = u) ->
  analyze_batch softmax asyncio_sleep self texts w = (inr results, w') ->
  w' = Nat.iter (length (batches self texts)) asyncio_sleep w.
Proof.
  intros Hquiet H. apply analyze_batch_returns in H.
  eapply run_batches_yields; eauto.
Qed.
End Yields.

(* ===================================================================== *)
(** ** More on the summary *)
(* ===================================================================== *)

Lemma fold_left_Qplus_acc (l : list Q) :
  forall a, (fold_left Qplus l a == a + fold_left Qplus l 0)%Q.
Proof.
  induction l as [|x l IH]; intros a; simpl.
  - ring.
  - rewrite (IH (a + x)%Q), (IH (0 + x)%Q). ring.
Qed.

Lemma sum_scores_cons (x : Q) (l : list Q) :
  (sum_scores (x :: l) == x + sum_scores l)%Q.
Proof.
  unfold sum_scores. simpl. rewrite fold_left_Qplus_acc. ring.
Qed.

Lemma inject_Z_length_cons {A} (x : A) (l : list A) :
  (inject_Z (Z.of_nat (length (x :: l)))
   == 1 + inject_Z (Z.of_nat (length l)))%Q.
Proof.
  simpl length. rewrite Nat2Z.inj_succ, <- Z.add_1_l, inject_Z_plus.
  reflexivity.
Qed.

Lemma sum_scores_bounds (lo hi : Q) (l : list Q) :
  Forall (fun x => lo <= x <= hi)%Q l ->
  (inject_Z (Z.of_nat (length l)) * lo <= sum_scores l
   <= inject_Z (Z.of_nat (length l)) * hi)%Q.
Proof.
  induction 1 as [|x l [Hlo Hhi] _ [IHlo IHhi]].
  - unfold sum_scores. simpl fold_left. simpl length.
    change (inject_Z (Z.of_nat 0)) with 0%Q. split; lra.
  - rewrite sum_scores_cons, inject_Z_length_cons.
    set (n := inject_Z (Z.of_nat (length l))) in *.
    split.
    + setoid_replace ((1 + n) * lo)%Q with (lo + n * lo)%Q by ring. lra.
    + setoid_replace ((1 + n) * hi)%Q with (hi + n * hi)%Q by ring. lra.
Qed.

Lemma mean_bounds (lo hi : Q) (l : list Q) :
  l <> [] ->
  Forall (fun x => lo <= x <= hi)%Q l ->
  (lo <= mean l <= hi)%Q.
Proof.
  intros Hne HF. destruct (sum_scores_bounds lo hi l HF) as [Hlo Hhi].
  assert (Hn : (0 < inject_Z (Z.of_nat (length l)))%Q).
  { change 0%Q with (inject_Z 0). rewrite <- Zlt_Qlt.
    destruct l; [congruence|simpl length; lia]. }
  unfold mean. split.
  - apply Qle_shift_div_l; [exact Hn|]. now rewrite Qmult_comm.
  - apply Qle_shift_div_r; [exact Hn|]. now rewrite Qmult_comm.
Qed.

Lemma summarize_between (lo hi : Q) (results : list result) (s : Summary) :
  Forall (fun r => lo <= score r <= hi)%Q results ->
  summarize results = inr s ->
  (0 < positive_count s -> (lo <= positive_avg_confidence s <= hi)%Q) /\
  (0 < negative_count s -> (lo <= negative_avg_confidence s <= hi)%Q) /\
  (positive_count s = 0 -> positive_avg_confidence s = 0%Q) /\
  (negative_count s = 0 -> negative_avg_confidence s = 0%Q).
Proof.
  intros HF Hs. rewrite summarize_closed_form in Hs.
  inversion Hs; subst s; simpl. clear Hs.
  assert (Hgroup : forall lbl,
            Forall (fun x => lo <= x <= hi)%Q
                   (map score (filter (has_label lbl) results))).
  { intros lbl. apply Forall_map. apply Forall_forall. intros r Hr.
    apply filter_In in Hr. destruct Hr as [Hr _].
    exact (proj1 (Forall_forall _ _) HF r Hr). }
  assert (Hcase : forall l : list result,
            Forall (fun x => lo <= x <= hi)%Q (map score l) ->
            (0 < Z.of_nat (length l) ->
             (lo <= match l with [] => 0 | _ :: _ => mean (map score l) end <= hi)%Q)
            /\ (Z.of_nat (length l) = 0 ->
                match l with [] => 0%Q | _ :: _ => mean (map score l) end = 0%Q)).
  { intros [|r l] Hl; split; simpl length; try lia; try reflexivity.
    intros _. apply mean_bounds; [discriminate|exact Hl]. }
  destruct (Hcase _ (Hgroup "POSITIVE")) as [Hp Hp0].
  destruct (Hcase _ (Hgroup "NEGATIVE")) as [Hn Hn0].
  auto.
Qed.

(** X10.  When every score lies between [lo] and [hi], so does each
    average confidence of the summary whose label occurs at least once
    (an average over no item is 0, whatever the bounds). *)
Theorem summarize_averages_bounded (lo hi : Q) (results : list result) (s : Summary) :
  Forall (fun r => lo <= score r <= hi)%Q results ->
  summarize results = inr s ->
  (0 < positive_count s -> (lo <= positive_avg_confidence s <= hi)%Q) /\
  (0 < negative_count s -> (lo <= negative_avg_confidence s <= hi)%Q) /\
  (positive_count s = 0 -> positive_avg_confidence s = 0%Q) /\
  (negative_count s = 0 -> negative_avg_confidence s = 0%Q).
Proof.
  intros HF Hs. exact (summarize_between lo hi results s HF Hs).
Qed.

(* ===================================================================== *)
(** ** More on main.py: the filename check, the frame, the responses *)
(* ===================================================================== *)

Lemma substring_whole (s : string) : substring 0 (String.length s) s = s.
Proof.
  induction s as [|c s IH]; simpl; [reflexivity|]. now rewrite IH.
Qed.

Lemma substring_after (p s : string) :
  substring (String.length p) (String.length s) (p ++ s) = s.
Proof.
  induction p as [|c p IH]; simpl; [apply substring_whole|exact IH].
Qed.

Lemma length_append (p s : string) :
  String.length (p ++ s) = (String.length p + String.length s)%nat.
Proof.
  induction p as [|c p IH]; simpl; [reflexivity|]. now rewrite IH.
Qed.

Lemma substring_split (s : string) :
  forall k, (k <= String.length s)%nat ->
    s = (substring 0 k s ++ substring k (String.length s - k) s)%string.
Proof.
  induction s as [|c s IH]; intros k Hk.
  - destruct k; [reflexivity|simpl in Hk; lia].
  - destruct k as [|k].
    + simpl. now rewrite substring_whole.
    + simpl. f_equal. apply IH. simpl in Hk. lia.
Qed.

(** [endswith] holds exactly of the strings that are some prefix followed
    by the suffix. *)
Lemma endswith_spec (s suffix : string) :
  endswith s suffix = true <-> exists prefix, s = (prefix ++ suffix)%string.
Proof.
  unfold endswith. split.
  - intros H. apply andb_true_iff in H. destruct H as [Hlen Heq].
    apply Nat.leb_le in Hlen. apply String.eqb_eq in Heq.
    exists (substring 0 (String.length s - String.length suffix) s).
    rewrite <- Heq at 2.
    rewrite (substring_split s (String.length s - String.length suffix)) at 1
      by lia.
    do 2 f_equal. lia.
  - intros [prefix ->]. rewrite length_append.
    apply andb_true_iff. split; [apply Nat.leb_le; lia|].
    replace (String.length prefix + String.length suffix - String.length suffix)%nat
      with (String.length prefix) by lia.
    rewrite substring_after. apply String.eqb_refl.
Qed.

Lemma column_index_In (name : string) (cols : list string) :
  In name cols -> exists k, column_index name cols = Some k.
Proof.
  induction cols as [|c cols IH]; intros Hin; [contradiction|].
  simpl. destruct (String.eqb_spec c name) as [_|Hne]; [eauto|].
  destruct Hin as [Heq|Hin]; [contradiction|].
  destruct (IH Hin) as [k Hk]. rewrite Hk. simpl. eauto.
Qed.

Lemma combine_map_r {A B} (f : A -> B) (l : list A) :
  combine l (map f l) = map (fun a => (a, f a)) l.
Proof.
  induction l as [|a l IH]; simpl; [reflexivity|]. now rewrite IH.
Qed.

Lemma nth_set_nth {A} (d v : A) (l : list A) :
  forall k, nth k (set_nth k v l) d = if (k <? length l)%nat then v else d.
Proof.
  induction l as [|x l IH]; intros k.
  - destruct k; reflexivity.
  - destruct k as [|k]; simpl; [reflexivity|]. apply IH.
Qed.

(** Cleaning the [review] column keeps the labels and the number of rows,
    and leaves in that column the texts [review_texts]. *)
Lemma cleaned_frame (df : DataFrame) :
  In "review" (columns df) ->
  columns (cleaned df) = columns df /\
  nrows (cleaned df) = nrows df /\
  exists review,
    get_column "review" (cleaned df) = inr review /\
    map clean_cell review = review_texts df.
Proof.
  intros Hin. destruct (column_index_In _ _ Hin) as [k Hk].
  unfold cleaned, get_column, assign_column, review_texts. rewrite Hk.
  unfold ok. cbn [columns rows]. rewrite Hk.
  rewrite map_map, combine_map_r. unfold nrows. cbn [columns rows].
  split; [reflexivity|]. split; [now rewrite !length_map|].
  eexists. split; [reflexivity|].
  rewrite !map_map. apply map_ext. intros row. simpl.
  rewrite nth_set_nth.
  destruct (Nat.ltb_spec k (length row)) as [Hlt|Hge]; [reflexivity|].
  now rewrite nth_overflow by lia.
Qed.

Lemma validate_csv_passes (df : DataFrame) :
  In "review" (columns df) -> (1 <= nrows df)%nat -> validate_csv df = None.
Proof.
  intros Hin Hrows. unfold validate_csv, df_empty.
  rewrite (proj2 (has_column_In _ _) Hin). simpl.
  destruct (columns df) as [|c cs]; [contradiction|].
  destruct (nrows df); [lia|reflexivity].
Qed.

Lemma length_review_texts (df : DataFrame) :
  In "review" (columns df) -> length (review_texts df) = nrows df.
Proof.
  intros Hin. destruct (column_index_In _ _ Hin) as [k Hk].
  unfold review_texts, nrows. rewrite Hk. apply length_map.
Qed.

Section Responses.
Context {W : Type}.
Variable softmax : list Q -> list Q.
Variable asyncio_sleep : W -> W.
Variable read_csv : string -> result_of DataFrame.
Variable str_of_exn : exn -> string.
Variable sentiment_analyzer : SentimentAnalyzer W.

Local Abbreviation post :=
  (analyze_reviews softmax asyncio_sleep read_csv str_of_exn sentiment_analyzer).
Local Abbreviation process :=
  (process_csv softmax asyncio_sleep read_csv sentiment_analyzer).
Local Abbreviation analyze :=
  (analyze_batch softmax asyncio_sleep sentiment_analyzer).

(** With an accepted name, the answer is the outcome of the [try] block,
    an exception being replaced by a status 500. *)
Lemma analyze_reviews_csv (filename content : string) (w : W) :
  endswith filename ".csv" = true ->
  post filename content w
  = match process content w with
    | (inl e, w') =>
        (inl (HTTPException 500 ("Error processing CSV: " ++ str_of_exn e)), w')
    | (inr response, w') => (inr response, w')
    end.
Proof.
  intros Hext. unfold analyze_reviews, try_except, throw. rewrite Hext. simpl.
  now destruct (process content w) as [[e|response] w'].
Qed.

(** For a frame that passes the validator, the [try] block is the analysis
    of [review_texts], then the summary, then the records of the cleaned
    frame. *)
Lemma process_csv_valid (content : string) (df : DataFrame) (w : W) :
  read_csv content = inr df ->
  In "review" (columns df) ->
  (1 <= nrows df)%nat ->
  process content w
  = match analyze (review_texts df) w with
    | (inl e, w') => (inl e, w')
    | (inr results, w') =>
        match summarize results with
        | inl e => (inl e, w')
        | inr sm =>
            match to_records (cleaned df) results with
            | inl e => (inl e, w')
            | inr records => (inr (mkResponse sm records), w')
            end
        end
    end.
Proof.
  intros Hread Hin Hrows.
  destruct (cleaned_frame df Hin) as [_ [_ [review' [Hget' Htexts]]]].
  assert (Hget : exists review,
             get_column "review" df = inr review /\
             cleaned df
             = assign_column "review" (map (fun c => Some (clean_cell c)) review) df).
  { unfold cleaned, get_column. destruct (column_index_In _ _ Hin) as [k Hk].
    rewrite Hk. eexists. split; reflexivity. }
  destruct Hget as [review [Hget Hcl]].
  unfold process_csv, bind, lift, ret.
  rewrite Hread, (validate_csv_passes df Hin Hrows), Hget, <- Hcl, Hget', Htexts.
  destruct (analyze (review_texts df) w) as [[e|results] w']; [reflexivity|].
  destruct (summarize results) as [e|sm]; [reflexivity|].
  now destruct (to_records (cleaned df) results).
Qed.

Lemma analyze_batch_known_labels (texts : list string) (w w' : W)
      (results : list result) :
  analyze texts w = (inr results, w') -> Forall known_label results.
Proof.
  intros Hrun. apply analyze_batch_returns in Hrun.
  eapply run_batches_invariant; [| |exact Hrun]; [|constructor].
  intros t row r Hc. apply classify_row_inv in Hc.
  unfold known_label. tauto.
Qed.

(** X12.  The endpoint answers with status 200, 400 or 500, and with 400
    exactly when the file name is not some prefix followed by [.csv]:
    nothing that happens to an upload with an accepted name ends in 400. *)
Theorem bad_request_iff_wrong_extension (filename content : string) (w : W) :
  let status := http_status (fst (post filename content w)) in
  (status = 400 <-> ~ exists prefix, filename = (prefix ++ ".csv")%string) /\
  (status = 200 \/ status = 400 \/ status = 500).
Proof.
  intros status. subst status.
  destruct (endswith filename ".csv") eqn:Hext.
  - assert (Hsuffix : exists prefix, filename = (prefix ++ ".csv")%string)
      by (now apply endswith_spec).
    rewrite analyze_reviews_csv by exact Hext.
    destruct (process content w) as [[e|response] w']; simpl.
    + split; [|auto]. split; [discriminate|contradiction].
    + split; [|auto]. split; [discriminate|contradiction].
  - rewrite wrong_extension_answers_400 by exact Hext. simpl.
    split; [|auto]. split; [|reflexivity].
    intros _ Hsuffix. apply endswith_spec in Hsuffix. congruence.
Qed.


(** X14.  An upload with an accepted name that parses to a frame with a
    [review] column and at least one row, analysed by a model that never
    raises and returns one non-empty row per text with a batch size of at
    least 1, is answered with status 200: [total_reviews] is the number of
    rows, there is one record per row, every record's sentiment is
    POSITIVE or NEGATIVE, and the two counts add up to [total_reviews]. *)
Theorem analyze_reviews_success (filename content : string) (df : DataFrame)
        (w : W) :
  endswith filename ".csv" = true ->
  read_csv content = inr df ->
  In "review" (columns df) ->
  (1 <= nrows df)%nat ->
  1 <= batch_size sentiment_analyzer ->
  well_shaped softmax sentiment_analyzer ->
  exists response w',
    post filename content w = (inr response, w') /\
    total_reviews (summary response) = Z.of_nat (nrows df) /\
    length (reviews response) = nrows df /\
    positive_count (summary response) + negative_count (summary response)
    = total_reviews (summary response) /\
    Forall (fun record => sentiment record = "POSITIVE"
                          \/ sentiment record = "NEGATIVE")
           (reviews response).
Proof.
  intros Hext Hread Hin Hrows Hbs Hshape.
  rewrite analyze_reviews_csv by exact Hext.
  rewrite (process_csv_valid content df w Hread Hin Hrows).
  destruct (analyze_batch_well_shaped softmax asyncio_sleep sentiment_analyzer
              (review_texts df) w Hbs Hshape) as [results [Hrun [_ Hlen]]].
  rewrite length_review_texts in Hlen by exact Hin.
  destruct (analyze (review_texts df) w) as [[e|results'] w'] eqn:Hrun';
    simpl in Hrun; [discriminate|].
  inversion Hrun; subst results'. clear Hrun.
  pose proof (analyze_batch_known_labels _ _ _ _ Hrun') as Hknown.
  rewrite summarize_closed_form. cbv zeta.
  destruct (cleaned_frame df Hin) as [_ [Hrows' _]].
  unfold to_records. rewrite Hrows', Hlen, Nat.eqb_refl. unfold ok.
  eexists. eexists. split; [reflexivity|]. simpl.
  split; [reflexivity|].
  split.
  { rewrite length_map, length_combine. unfold nrows in *. lia. }
  split.
  { now rewrite <- Nat2Z.inj_add, known_labels_split, Hlen. }
  apply Forall_map. apply Forall_forall. intros [row r] Hr. simpl.
  apply in_combine_r in Hr.
  exact (proj1 (Forall_forall _ _) Hknown r Hr).
Qed.

(** X15.  When the model raises on one of the slices of the review texts
    of a valid upload, the endpoint answers with status 500 and a detail
    made of "Error processing CSV: " and the rendering of an exception: no
    partial response is sent. *)
Theorem analyze_reviews_model_failure (filename content : string)
        (df : DataFrame) (c : list string) (w : W) :
  endswith filename ".csv" = true ->
  read_csv content = inr df ->
  In "review" (columns df) ->
  (1 <= nrows df)%nat ->
  In c (batches sentiment_analyzer (review_texts df)) ->
  (forall u, exists e, fst (forward sentiment_analyzer c u) = inl e) ->
  exists e,
    fst (post filename content w)
    = inl (HTTPException 500 ("Error processing CSV: " ++ str_of_exn e)).
Proof.
  intros Hext Hread Hin Hrows Hc Hraise.
  rewrite analyze_reviews_csv by exact Hext.
  rewrite (process_csv_valid content df w Hread Hin Hrows).
  destruct (analyze_batch_no_partial_results softmax asyncio_sleep
              sentiment_analyzer (review_texts df) c w Hc Hraise) as [e He].
  destruct (analyze (review_texts df) w) as [[e'|results] w']; simpl in He;
    [|discriminate].
  inversion He; subst e'. now exists e.
Qed.
End Responses.

Section Confidence.
Context {W : Type}.
Variable softmax : list Q -> list Q.
Variable asyncio_sleep : W -> W.

(** X16.  With an item-wise model whose softmax rows are distributions
    over two classes, every score returned by [analyze_batch] lies between
    1/2 and 1, and so does each average confidence of the summary whose
    label occurs at least once. *)
Theorem analyze_batch_confidence_range (self : SentimentAnalyzer W)
        (logits_of : string -> list Q) (texts : list string) (w : W) :
  1 <= batch_size self ->
  itemwise self logits_of ->
  two_class softmax logits_of ->
  exists results s,
    fst (analyze_batch softmax asyncio_sleep self texts w) = inr results /\
    Forall (fun r => 1 # 2 <= score r <= 1)%Q results /\
    summarize results = inr s /\
    (0 < positive_count s -> (1 # 2 <= positive_avg_confidence s <= 1)%Q) /\
    (0 < negative_count s -> (1 # 2 <= negative_avg_confidence s <= 1)%Q).
Proof.
  intros Hbs Hitem H2.
  destruct (analyze_batch_itemwise softmax asyncio_sleep self logits_of texts w
              Hbs Hitem (two_class_nonempty softmax logits_of H2))
    as [results [Hrun HF]].
  assert (Hrange : Forall (fun r => 1 # 2 <= score r <= 1)%Q results).
  { clear Hrun. induction HF as [|t r ts rs Hc _ IH]; constructor; [|exact IH].
    destruct (H2 t) as [p0 [p1 [Hsm [Hp0 [Hp1 Hsum]]]]].
    rewrite Hsm, classify_row_pair in Hc.
    destruct (Qle_bool p1 p0) eqn:Hle; inversion Hc; subst r; simpl.
    - apply Qle_bool_iff in Hle. split; lra.
    - assert (Hnle : ~ (p1 <= p0)%Q).
      { intros Hcontra. apply Qle_bool_iff in Hcontra. congruence. }
      split; lra. }
  pose proof (summarize_closed_form results) as Hs. cbv zeta in Hs.
  eexists. eexists. split; [exact Hrun|]. split; [exact Hrange|].
  split; [exact Hs|].
  destruct (summarize_between (1 # 2) 1 results _ Hrange Hs) as [Hp [Hn _]].
  split; assumption.
Qed.
End Confidence.

Section NegativeBatchSize.
Context {W : Type}.
Variable softmax : list Q -> list Q.
Variable asyncio_sleep : W -> W.
Variable read_csv : string -> result_of DataFrame.
Variable str_of_exn : exn -> string.
Variable sentiment_analyzer : SentimentAnalyzer W.

(** X17.  With an analyzer built with a negative batch size, every upload
    that passes the validator is answered with status 500 and the model is
    never called: the analysis returns no result for the rows of the
    frame, and the columns of the response cannot be filled. *)
Theorem negative_batch_size_answers_500 (filename content : string)
        (df : DataFrame) (w : W) :
  endswith filename ".csv" = true ->
  read_csv content = inr df ->
  In "review" (columns df) ->
  (1 <= nrows df)%nat ->
  batch_size sentiment_analyzer < 0 ->
  exists detail,
    analyze_reviews softmax asyncio_sleep read_csv str_of_exn sentiment_analyzer
                    filename content w
    = (inl (HTTPException 500 detail), w).
Proof.
  intros Hext Hread Hin Hrows Hbs.
  rewrite analyze_reviews_csv by exact Hext.
  rewrite (process_csv_valid softmax asyncio_sleep read_csv sentiment_analyzer
             content df w Hread Hin Hrows).
  unfold analyze_batch, py_range, bind, lift.
  destruct (Z.eqb_spec (batch_size sentiment_analyzer) 0) as [|_]; [lia|].
  unfold range_length.
  destruct (Z.ltb_spec 0 (batch_size sentiment_analyzer)) as [|_]; [lia|].
  destruct (Z.ltb_spec (Z.of_nat (length (review_texts df))) 0) as [|_]; [lia|].
  unfold ok. cbn [Z.to_nat seq map batch_loop]. unfold ret. cbv beta iota.
  rewrite summarize_closed_form. cbv zeta.
  destruct (cleaned_frame df Hin) as [_ [Hrows' _]].
  unfold to_records. rewrite Hrows'. cbn [length].
  destruct (Nat.eqb_spec 0 (nrows df)) as [|_]; [lia|].
  unfold raise. eauto.
Qed.
End NegativeBatchSize.

(* ===================================================================== *)
(** ** The further properties at work on concrete inputs *)
(* ===================================================================== *)

Lemma demo_well_shaped (batch_size : Z) :
  well_shaped Demo.softmax (Demo.analyzer batch_size).
Proof.
  intros c w. exists (map Demo.logits_of c).
  split; [reflexivity|]. split; [apply length_map|].
  apply Forall_map. apply Forall_forall. intros t _. discriminate.
Qed.

Lemma analyze_batch_returns_aligned_witness :
  exists results,
    analyze_batch Demo.softmax Demo.asyncio_sleep (Demo.analyzer 2)
                  Demo.five_texts 0%nat = (inr results, 6%nat) /\
    map text results = Demo.five_texts /\
    length results = length Demo.five_texts.
Proof.
  eexists. split; [reflexivity|].
  eapply (analyze_batch_returns_aligned Demo.softmax Demo.asyncio_sleep
            (Demo.analyzer 2) Demo.five_texts 0%nat 6%nat).
  - simpl. lia.
  - reflexivity.
Defined.

Lemma analyze_batch_nonpositive_batch_size_witness :
  analyze_batch Demo.softmax Demo.asyncio_sleep (Demo.analyzer (-3))
                Demo.five_texts 0%nat = (inr [], 0%nat) /\
  analyze_batch Demo.softmax Demo.asyncio_sleep (Demo.analyzer 0)
                [] 0%nat
  = (inl (ValueError "range() arg 3 must not be zero"), 0%nat).
Proof.
  split.
  - apply (analyze_batch_nonpositive_batch_size Demo.softmax Demo.asyncio_sleep
             (Demo.analyzer (-3)) Demo.five_texts 0%nat).
    simpl. lia.
  - apply (analyze_batch_nonpositive_batch_size Demo.softmax Demo.asyncio_sleep
             (Demo.analyzer 0) [] 0%nat).
    simpl. lia.
Defined.

Lemma analyze_batch_empty_input_witness :
  analyze_batch Demo.softmax Demo.asyncio_sleep (Demo.analyzer 16) [] 4%nat
  = (inr [], 4%nat).
Proof.
  apply (analyze_batch_empty_input Demo.softmax Demo.asyncio_sleep
           (Demo.analyzer 16) 4%nat).
  simpl. discriminate.
Defined.

Lemma batches_count_witness :
  Z.of_nat (length (batches (Demo.analyzer 2) Demo.five_texts)) = (5 + 2 - 1) / 2.
Proof.
  apply (batches_count (Demo.analyzer 2) Demo.five_texts).
  simpl. lia.
Defined.

Lemma batches_single_witness :
  batches (Demo.analyzer 7) Demo.five_texts = [Demo.five_texts].
Proof.
  apply (batches_single (Demo.analyzer 7) Demo.five_texts).
  - discriminate.
  - simpl. lia.
Defined.

Lemma analyze_text_agrees_with_batch_witness :
  fst (analyze_batch Demo.softmax Demo.asyncio_sleep (Demo.analyzer 2)
                     ["hello"] 0%nat)
  = rbind (fst (analyze_text Demo.softmax (Demo.analyzer 2) "hello" 0%nat))
          (fun r => ok [r]).
Proof.
  apply (analyze_text_agrees_with_batch Demo.softmax Demo.asyncio_sleep
           (Demo.analyzer 2) "hello" 0%nat).
  - simpl. lia.
  - intros logits H. inversion H. reflexivity.
Defined.

Lemma analyze_text_result_witness :
  exists r,
    analyze_text Demo.softmax (Demo.analyzer 2) "hello" 0%nat = (inr r, 1%nat) /\
    text r = "hello" /\ known_label r /\
    In (score r) (Demo.softmax (Demo.logits_of "hello")) /\
    forall y, In y (Demo.softmax (Demo.logits_of "hello")) -> (y <= score r)%Q.
Proof.
  eexists. split; [reflexivity|].
  eapply (analyze_text_result Demo.softmax (Demo.analyzer 2) "hello"
            0%nat 1%nat 1%nat (Demo.logits_of "hello")).
  - reflexivity.
  - reflexivity.
Defined.

Lemma analyze_batch_yields_once_per_batch_witness :
  exists results,
    analyze_batch Demo.softmax Demo.asyncio_sleep (Samples.quiet_analyzer 2)
                  Demo.five_texts 0%nat = (inr results, 3%nat) /\
    3%nat = Nat.iter (length (batches (Samples.quiet_analyzer 2) Demo.five_texts))
                     Demo.asyncio_sleep 0%nat.
Proof.
  eexists. split; [reflexivity|].
  eapply (analyze_batch_yields_once_per_batch Demo.softmax Demo.asyncio_sleep
            (Samples.quiet_analyzer 2) Demo.five_texts 0%nat 3%nat).
  - intros c u. reflexivity.
  - reflexivity.
Defined.

Lemma mixed_results_in_range :
  Forall (fun r => 1 # 2 <= score r <= 1)%Q Samples.mixed_results.
Proof.
  repeat constructor; simpl; unfold Qle; simpl; lia.
Qed.

Lemma summarize_averages_bounded_witness :
  exists s,
    summarize Samples.mixed_results = inr s /\
    (0 < positive_count s -> (1 # 2 <= positive_avg_confidence s <= 1)%Q) /\
    (0 < negative_count s -> (1 # 2 <= negative_avg_confidence s <= 1)%Q) /\
    (positive_count s = 0 -> positive_avg_confidence s = 0%Q) /\
    (negative_count s = 0 -> negative_avg_confidence s = 0%Q).
Proof.
  eexists. split; [reflexivity|].
  apply (summarize_averages_bounded (1 # 2) 1 Samples.mixed_results).
  - apply mixed_results_in_range.
  - reflexivity.
Defined.


Lemma analyze_reviews_success_witness :
  exists response w',
    Demo.post_analyze "data.csv" Demo.csv_two_reviews 0%nat = (inr response, w') /\
    total_reviews (summary response) = Z.of_nat (nrows Samples.two_reviews) /\
    length (reviews response) = nrows Samples.two_reviews /\
    positive_count (summary response) + negative_count (summary response)
    = total_reviews (summary response) /\
    Forall (fun record => sentiment record = "POSITIVE"
                          \/ sentiment record = "NEGATIVE")
           (reviews response).
Proof.
  apply (analyze_reviews_success Demo.softmax Demo.asyncio_sleep Demo.read_csv
           Demo.str_of_exn (Demo.analyzer 16)
           "data.csv" Demo.csv_two_reviews Samples.two_reviews 0%nat).
  - reflexivity.
  - reflexivity.
  - simpl. now right; left.
  - unfold nrows. simpl. lia.
  - simpl. lia.
  - apply demo_well_shaped.
Defined.

Lemma analyze_reviews_model_failure_witness :
  exists e,
    fst (analyze_reviews Demo.softmax Demo.asyncio_sleep Samples.read_csv
                         Demo.str_of_exn (Demo.fragile_analyzer 16)
                         "data.csv" Samples.csv_boom 0%nat)
    = inl (HTTPException 500 ("Error processing CSV: " ++ Demo.str_of_exn e)).
Proof.
  apply (analyze_reviews_model_failure Demo.softmax Demo.asyncio_sleep
           Samples.read_csv Demo.str_of_exn (Demo.fragile_analyzer 16)
           "data.csv" Samples.csv_boom
           (mkDataFrame ["review"] [[Some "boom"]]) ["boom"] 0%nat).
  - reflexivity.
  - reflexivity.
  - simpl. now left.
  - unfold nrows. simpl. lia.
  - left. reflexivity.
  - intros u. eexists. reflexivity.
Defined.

Lemma analyze_batch_confidence_range_witness :
  exists results s,
    fst (analyze_batch Demo.softmax Demo.asyncio_sleep (Demo.analyzer 2)
                       Demo.five_texts 0%nat) = inr results /\
    Forall (fun r => 1 # 2 <= score r <= 1)%Q results /\
    summarize results = inr s /\
    (0 < positive_count s -> (1 # 2 <= positive_avg_confidence s <= 1)%Q) /\
    (0 < negative_count s -> (1 # 2 <= negative_avg_confidence s <= 1)%Q).
Proof.
  apply (analyze_batch_confidence_range Demo.softmax Demo.asyncio_sleep
           (Demo.analyzer 2) Demo.logits_of Demo.five_texts 0%nat).
  - simpl. lia.
  - apply demo_itemwise.
  - apply demo_two_class.
Defined.

Lemma negative_batch_size_answers_500_witness :
  exists detail,
    analyze_reviews Demo.softmax Demo.asyncio_sleep Demo.read_csv
                    Demo.str_of_exn (Demo.analyzer (-1))
                    "data.csv" Demo.csv_two_reviews 0%nat
    = (inl (HTTPException 500 detail), 0%nat).
Proof.
  apply (negative_batch_size_answers_500 Demo.softmax Demo.asyncio_sleep
           Demo.read_csv Demo.str_of_exn (Demo.analyzer (-1))
           "data.csv" Demo.csv_two_reviews Samples.two_reviews 0%nat).
  - reflexivity.
  - reflexivity.
  - simpl. now right; left.
  - unfold nrows. simpl. lia.
  - simpl. lia.
Defined.
